(** * nuscenes_utils.data_classes: point-cloud decoders, PointCloud and Box

    A shallow embedding of [python-sdk/nuscenes_utils/data_classes.py].

    Conventions of the embedding:
    - Python [bytes] and [str] values are Rocq [string]s (one [ascii] per
      byte); a decoded header line is kept in its UTF-8 form, on which
      [startswith], [split(' ')] and comparison with ASCII literals agree
      with the same operations on code points.
    - A raised exception is a value of [exn]; a computation that may raise
      has type [result A].
    - IEEE-754 values are [spec_float]s (the Standard Library's executable
      specification of binary floating point, with a single NaN); Python
      floats and [np.float64] entries are canonical binary64 values,
      [np.float32] entries canonical binary32 values.
    - A numpy 2-d array is a [matrix]: its shape and its rows. *)

From Stdlib Require Import ZArith List String Ascii Bool Lia SpecFloat.
Import ListNotations.

Local Open Scope string_scope.
Local Open Scope Z_scope.

(** ** Exceptions and results *)

(** The exceptions the module can raise.  [AssertionError] carries the
    message of the [assert]; an [assert] written without a message is
    tagged with the text of the asserted expression, so that the sites
    can be told apart. *)
Inductive exn : Type :=
| AssertionError (msg : string)
| ValueError (msg : string)
| TypeError (msg : string)
| StructError (msg : string)
| IndexError
| KeyError
| OverflowError
| UnicodeDecodeError.

Inductive result (A : Type) : Type :=
| Ok (a : A)
| Raise (e : exn).

Arguments Ok {A} a.
Arguments Raise {A} e.

Definition bind {A B : Type} (r : result A) (k : A -> result B) : result B :=
  match r with
  | Ok a => k a
  | Raise e => Raise e
  end.

Notation "x <- r ;; k" := (bind r (fun x => k))
  (at level 61, r at next level, right associativity).
Notation "' p <- r ;; k" := (bind r (fun x => let p := x in k))
  (at level 61, p pattern, r at next level, right associativity).

(** [assert cond, msg] *)
Definition py_assert (cond : bool) (msg : string) : result unit :=
  if cond then Ok tt else Raise (AssertionError msg).

(** [l[i]] on a Python list. *)
Definition index {A : Type} (l : list A) (i : nat) : result A :=
  match nth_error l i with
  | Some a => Ok a
  | None => Raise IndexError
  end.

(** ** Byte strings *)

Definition byte_val (c : ascii) : Z := Z.of_N (N_of_ascii c).

Definition newline : ascii := ascii_of_nat 10.

(** The bytes [bytes.strip()] removes: space, [\t], [\n], [\v], [\f], [\r]. *)
Definition is_space (c : ascii) : bool :=
  let n := byte_val c in
  (n =? 32) || ((9 <=? n) && (n <=? 13)).

Fixpoint lstrip_by (sp : ascii -> bool) (s : string) : string :=
  match s with
  | String c s' => if sp c then lstrip_by sp s' else s
  | EmptyString => EmptyString
  end.

Fixpoint rstrip_by (sp : ascii -> bool) (s : string) : string :=
  match s with
  | String c s' =>
      match rstrip_by sp s' with
      | EmptyString => if sp c then EmptyString else String c EmptyString
      | t => String c t
      end
  | EmptyString => EmptyString
  end.

Definition strip_by (sp : ascii -> bool) (s : string) : string :=
  rstrip_by sp (lstrip_by sp s).

(** [line.strip()] *)
Definition strip : string -> string := strip_by is_space.

(** [s.startswith(p)] *)
Definition startswith (s p : string) : bool := String.prefix p s.

(** [s.endswith(p)] *)
Definition endswith (s p : string) : bool :=
  let n := String.length s in
  let k := String.length p in
  (k <=? n)%nat && String.eqb (substring (n - k) k s) p.

(** [s.split(' ')]: split at every single space, keeping empty pieces. *)
Fixpoint split_from (cur : string) (s : string) : list string :=
  match s with
  | EmptyString => [cur]
  | String c s' =>
      if Ascii.eqb c " "%char then cur :: split_from EmptyString s'
      else split_from (cur ++ String c EmptyString) s'
  end.

Definition split_space (s : string) : list string := split_from EmptyString s.

(** [l[1:]] *)
Definition drop1 {A : Type} (l : list A) : list A := tl l.

(** ** UTF-8 validity ([bytes.decode('utf-8')]) *)

Definition in_range (lo hi : Z) (c : ascii) : bool :=
  (lo <=? byte_val c) && (byte_val c <=? hi).

Definition cont : ascii -> bool := in_range 128 191.

(** Well-formed UTF-8 byte sequences (Unicode, table 3-7). *)
Fixpoint utf8_valid (s : string) : bool :=
  match s with
  | EmptyString => true
  | String a r =>
      if in_range 0 127 a then utf8_valid r
      else
        match r with
        | String b r1 =>
            if in_range 194 223 a then cont b && utf8_valid r1
            else
              match r1 with
              | String c r2 =>
                  if in_range 224 239 a then
                    (if byte_val a =? 224 then in_range 160 191 b
                     else if byte_val a =? 237 then in_range 128 159 b
                     else cont b)
                    && cont c && utf8_valid r2
                  else
                    match r2 with
                    | String d r3 =>
                        in_range 240 244 a
                        && (if byte_val a =? 240 then in_range 144 191 b
                            else if byte_val a =? 244 then in_range 128 143 b
                            else cont b)
                        && cont c && cont d && utf8_valid r3
                    | EmptyString => false
                    end
              | EmptyString => false
              end
        | EmptyString => false
        end
  end.

(** [line.decode('utf-8')]; the decoded text is kept in its UTF-8 form. *)
Definition decode_utf8 (s : string) : result string :=
  if utf8_valid s then Ok s else Raise UnicodeDecodeError.

(** ** [int(s)] on a [str] *)

Definition is_digit (c : ascii) : bool := in_range 48 57 c.

(** Digits with single underscores between them, most significant first;
    [after_digit] tells whether the previous character was a digit. *)
Fixpoint parse_digits (s : string) (acc : Z) (after_digit : bool) : option Z :=
  match s with
  | EmptyString => if after_digit then Some acc else None
  | String c s' =>
      if is_digit c then parse_digits s' (10 * acc + (byte_val c - 48)) true
      else if Ascii.eqb c "_"%char then
        (if after_digit then
           match s' with
           | EmptyString => None
           | String d _ => if is_digit d then parse_digits s' acc false else None
           end
         else None)
      else None
  end.

(** [int(s)]: decimal, optional sign; the whitespace around the number
    that is skipped is the ASCII one, space and [\t] to [\r], the
    separators [\x1c] to [\x1f] being refused.  (Covers ASCII text:
    Python also takes the decimal digits and the spaces of the other
    scripts, which are refused here.) *)
Definition py_int (s : string) : result Z :=
  let bad := Raise (ValueError "invalid literal for int() with base 10") in
  match strip_by is_space s with
  | String "-" s' =>
      match parse_digits s' 0 false with Some n => Ok (- n) | None => bad end
  | String "+" s' =>
      match parse_digits s' 0 false with Some n => Ok n | None => bad end
  | s' =>
      match parse_digits s' 0 false with Some n => Ok n | None => bad end
  end.

(** ** Numbers *)

(** Binary64, the format of Python floats and of [np.float64]. *)
Definition prec64 : Z := 53.
Definition emax64 : Z := 1024.

(** A Python number as [struct.unpack] returns it. *)
Inductive pynum : Type :=
| PyFloat (f : spec_float)
| PyInt (z : Z).

Definition is_nan (f : spec_float) : bool :=
  match f with S754_nan => true | _ => false end.

(** [np.isnan] on one entry: false on every integer. *)
Definition np_isnan (v : pynum) : bool :=
  match v with
  | PyFloat f => is_nan f
  | PyInt _ => false
  end.

(** Little-endian bytes as an unsigned, and as a two's complement, integer. *)
Fixpoint le_uint (s : string) : Z :=
  match s with
  | EmptyString => 0
  | String c s' => byte_val c + 256 * le_uint s'
  end.

Definition le_sint (s : string) : Z :=
  let w := 8 * Z.of_nat (String.length s) in
  let u := le_uint s in
  if u <? 2 ^ (w - 1) then u else u - 2 ^ w.

(** The IEEE-754 interchange encoding with [ebits] exponent bits and [mbits]
    fraction bits, read into the canonical value of that format. *)
Definition decode_ieee (ebits mbits : Z) (bits : Z) : spec_float :=
  let sign := Z.testbit bits (ebits + mbits) in
  let e := Z.land (Z.shiftr bits mbits) (Z.ones ebits) in
  let m := Z.land bits (Z.ones mbits) in
  let bias := 2 ^ (ebits - 1) - 1 in
  if e =? Z.ones ebits then
    (if m =? 0 then S754_infinity sign else S754_nan)
  else if e =? 0 then
    match m with
    | Zpos p => S754_finite sign p (1 - bias - mbits)
    | _ => S754_zero sign
    end
  else
    match m + 2 ^ mbits with
    | Zpos p => S754_finite sign p (e - bias - mbits)
    | _ => S754_zero sign
    end.

(** The exact conversion of a narrower format's value to a Python float. *)
Definition to_float64 (x : spec_float) : spec_float :=
  match x with
  | S754_finite s m e => binary_round prec64 emax64 s m e
  | _ => x
  end.

(** The float nearest to an integer ([float(z)], and numpy's conversion of
    an integer entry to float64). *)
Definition float_of_Z (z : Z) : spec_float :=
  binary_normalize prec64 emax64 z 0 false.

Definition decode_f16 (s : string) : spec_float := decode_ieee 5 10 (le_uint s).
Definition decode_f32 (s : string) : spec_float := decode_ieee 8 23 (le_uint s).
Definition decode_f64 (s : string) : spec_float := decode_ieee 11 52 (le_uint s).

(** ** [struct.unpack] with a one-character native format

    Native byte order is taken to be little-endian, the order of the
    files.  [struct.error] (a buffer of the wrong size, an unknown format
    character) is [StructError]. *)
Definition calcsize (c : ascii) : option nat :=
  match c with
  | "b" | "B" => Some 1
  | "e" | "h" | "H" => Some 2
  | "f" | "i" | "I" => Some 4
  | "d" | "q" | "Q" => Some 8
  | _ => None
  end%char%nat.

Definition struct_unpack (c : ascii) (buf : string) : result pynum :=
  match calcsize c with
  | None => Raise (StructError "bad char in struct format")
  | Some n =>
      if negb (String.length buf =? n)%nat
      then Raise (StructError "unpack requires a buffer of the format's size")
      else
        Ok match c with
           | "e" => PyFloat (to_float64 (decode_f16 buf))
           | "f" => PyFloat (to_float64 (decode_f32 buf))
           | "d" => PyFloat (decode_f64 buf)
           | "b" | "h" | "i" | "q" => PyInt (le_sint buf)
           | _ => PyInt (le_uint buf)
           end%char
  end.

(** [b[start:end]] for [0 <= start]. *)
Definition slice (b : string) (start_p end_p : Z) : string :=
  substring (Z.to_nat start_p) (Z.to_nat (end_p - start_p)) b.

(** ** Matrices (2-d numpy arrays) *)

Record matrix (A : Type) : Type := Matrix {
  nrows : nat;
  ncols : nat;
  rows : list (list A)
}.

Arguments Matrix {A} nrows ncols rows.
Arguments nrows {A} m.
Arguments ncols {A} m.
Arguments rows {A} m.

(** [m.shape[0]] *)
Definition shape0 {A : Type} (m : matrix A) : nat := nrows m.

(** [np.zeros((r, 0))] *)
Definition zeros_r_by_0 {A : Type} (r : nat) : matrix A :=
  Matrix r 0 (repeat [] r).

(** Entry [i] of every row that has one: column [i] of a list of rows. *)
Definition column {A : Type} (i : nat) (rs : list (list A)) : list A :=
  flat_map (fun r => match nth_error r i with Some x => [x] | None => [] end) rs.

(** [np.array(rs).transpose()] for [rs] a list of [n] rows of [k] entries. *)
Definition array_transpose {A : Type} (k : nat) (rs : list (list A)) : matrix A :=
  Matrix k (List.length rs) (map (fun i => column i rs) (seq 0 k)).

(** Entry [(i, j)], when there is one. *)
Definition entry {A : Type} (m : matrix A) (i j : nat) : option A :=
  match nth_error (rows m) i with
  | Some r => nth_error r j
  | None => None
  end.

(** A matrix whose rows agree with its shape. *)
Definition rectangular {A : Type} (m : matrix A) : Prop :=
  List.length (rows m) = nrows m /\
  Forall (fun r => List.length r = ncols m) (rows m).

(** ** PointCloud.load_pcd_bin *)

(** Loops that may raise: [for a in l: s = f(s, a)]. *)
Fixpoint for_each {A S : Type} (f : S -> A -> result S) (l : list A) (s : S)
  : result S :=
  match l with
  | [] => Ok s
  | a :: l' => s' <- f s a ;; for_each f l' s'
  end.

(** [range(n)] for an [int] [n]. *)
Definition py_range (n : Z) : list nat := seq 0 (Z.to_nat n).

(** The reading loop (lines 61-68): the file is consumed line by line, each
    line stripped, decoded and appended to [meta], up to and including the
    first line that starts with [DATA]; [f.read()] then returns the rest.
    [cur] holds the bytes of the line being read. *)
Fixpoint read_lines (f : string) (cur : string) (meta : list string)
  : result (list string * string) :=
  match f with
  | EmptyString =>
      match cur with
      | EmptyString => Ok (meta, EmptyString)
      | _ =>
          line <- decode_utf8 (strip cur) ;;
          Ok ((meta ++ [line])%list, EmptyString)
      end
  | String c f' =>
      if Ascii.eqb c newline then
        line <- decode_utf8 (strip (cur ++ String c EmptyString)) ;;
        if startswith line "DATA" then Ok ((meta ++ [line])%list, f')
        else read_lines f' EmptyString (meta ++ [line])%list
      else read_lines f' (cur ++ String c EmptyString) meta
  end.

Definition read_meta (file : string) : result (list string * string) :=
  read_lines file EmptyString [].

(** The look-up table of line 86, and [d[k]] on a dict. *)
Fixpoint dict_get {K V : Type} (eqb : K -> K -> bool) (d : list (K * V)) (k : K)
  : result V :=
  match d with
  | [] => Raise KeyError
  | (k', v) :: d' => if eqb k' k then Ok v else dict_get eqb d' k
  end.

Definition unpacking_lut : list (string * list (Z * ascii)) :=
  [ ("F", [(2, "e"); (4, "f"); (8, "d")]%char);
    ("I", [(1, "b"); (2, "h"); (4, "i"); (8, "q")]%char);
    ("U", [(1, "B"); (2, "H"); (4, "I"); (8, "Q")]%char) ].

(** [unpacking_lut[t][int(s)]] *)
Definition lut_char (t s : string) : result ascii :=
  row <- dict_get String.eqb unpacking_lut t ;;
  n <- py_int s ;;
  dict_get Z.eqb row n.

(** [''.join([unpacking_lut[t][int(s)] for t, s in zip(types, sizes)])] *)
Fixpoint types_str_of (ts : list (string * string)) : result string :=
  match ts with
  | [] => Ok EmptyString
  | (t, s) :: ts' =>
      c <- lut_char t s ;;
      r <- types_str_of ts' ;;
      Ok (String c r)
  end.

(** [s[p]] on a [str]. *)
Definition str_index (s : string) (p : nat) : result ascii :=
  match String.get p s with
  | Some c => Ok c
  | None => Raise IndexError
  end.

Definition bounds_msg : string := "end_p < len(data_binary)".

(** The body of the inner loop (lines 98-103); the state is the point
    under construction and the running offset. *)
Definition decode_field (sizes : list string) (types_str data_binary : string)
  (st : list pynum * Z) (p : nat) : result (list pynum * Z) :=
  let '(point, offset) := st in
  let start_p := offset in
  sp <- index sizes p ;;
  n <- py_int sp ;;
  let end_p := start_p + n in
  _ <- py_assert (end_p <? Z.of_nat (String.length data_binary)) bounds_msg ;;
  c <- str_index types_str p ;;
  point_p <- struct_unpack c (slice data_binary start_p end_p) ;;
  Ok ((point ++ [point_p])%list, end_p).

(** The body of the outer loop (lines 96-104); the state is the list of
    points and the running offset. *)
Definition decode_point (sizes : list string) (types_str data_binary : string)
  (feature_count : nat) (st : list (list pynum) * Z) (i : nat)
  : result (list (list pynum) * Z) :=
  let '(points, offset) := st in
  '(point, offset') <-
    for_each (decode_field sizes types_str data_binary)
             (seq 0 feature_count) ([], offset) ;;
  Ok ((points ++ [point])%list, offset').

(** Lines 92-104. *)
Definition decode_points (sizes : list string) (types_str data_binary : string)
  (feature_count : nat) (width : Z) : result (list (list pynum)) :=
  '(points, _) <-
    for_each (decode_point sizes types_str data_binary feature_count)
             (py_range width) ([], 0) ;;
  Ok points.

(** What lines 71-83 read from the header and check. *)
Record pcd_header : Type := PcdHeader {
  h_sizes : list string;
  h_types : list string;
  h_counts : list string;
  h_width : Z;
  h_height : Z;
  h_data : string
}.

Definition feature_count (h : pcd_header) : nat := List.length (h_types h).

(** Lines 71-83. *)
Definition parse_header (meta : list string) : result pcd_header :=
  m0 <- index meta 0 ;;
  _ <- py_assert (startswith m0 "#") "First line must be comment" ;;
  m1 <- index meta 1 ;;
  _ <- py_assert (startswith m1 "VERSION") "Second line must be VERSION" ;;
  m3 <- index meta 3 ;;
  let sizes := drop1 (split_space m3) in
  m4 <- index meta 4 ;;
  let types := drop1 (split_space m4) in
  m5 <- index meta 5 ;;
  let counts := drop1 (split_space m5) in
  m6 <- index meta 6 ;;
  w <- index (split_space m6) 1 ;;
  width <- py_int w ;;
  m7 <- index meta 7 ;;
  h <- index (split_space m7) 1 ;;
  height <- py_int h ;;
  m10 <- index meta 10 ;;
  data <- index (split_space m10) 1 ;;
  _ <- py_assert (0 <? width) "width > 0" ;;
  _ <- py_assert
         (List.length (filter (fun c => negb (String.eqb c c)) counts) =? 0)%nat
         "Error: COUNT not supported!" ;;
  _ <- py_assert (height =? 1) "Error: height != 0 not supported!" ;;
  _ <- py_assert (String.eqb data "binary") "data == 'binary'" ;;
  Ok (PcdHeader sizes types counts width height data).

(** [np.array(points)] on rows of Python numbers gives the array one
    dtype.  A float anywhere makes it float64.  Integers alone stay
    integers (int64, or uint64 when one of them is 2^63 or more and none
    is negative); a negative integer beside one of 2^63 or more makes the
    array float64 too.  An integer entry of a float64 array is the float
    nearest to it.  (The integers of [struct.unpack] lie between -2^63
    and 2^64, so that no array of objects arises.) *)
Definition is_py_float (v : pynum) : bool :=
  match v with PyFloat _ => true | PyInt _ => false end.

Definition is_negative_int (v : pynum) : bool :=
  match v with PyInt z => z <? 0 | PyFloat _ => false end.

Definition is_large_int (v : pynum) : bool :=
  match v with PyInt z => 2 ^ 63 <=? z | PyFloat _ => false end.

Definition float64_dtype (points : list (list pynum)) : bool :=
  let vs := List.concat points in
  existsb is_py_float vs
  || (existsb is_negative_int vs && existsb is_large_int vs).

Definition as_float64 (v : pynum) : pynum :=
  match v with
  | PyInt z => PyFloat (float_of_Z z)
  | PyFloat f => PyFloat f
  end.

(** The entry of the array for the Python number [v]. *)
Definition cast (float64 : bool) (v : pynum) : pynum :=
  if float64 then as_float64 v else v.

Definition np_array (points : list (list pynum)) : list (list pynum) :=
  map (map (cast (float64_dtype points))) points.

(** Lines 86-114, on a parsed header.  The entries of the returned matrix
    are those of [np.array(points)]: the decoded numbers, as floats when
    the array is float64. *)
Definition decode_pcd (h : pcd_header) (data_binary : string)
  : result (matrix pynum) :=
  types_str <- types_str_of (combine (h_types h) (h_sizes h)) ;;
  points <- decode_points (h_sizes h) types_str data_binary
                          (feature_count h) (h_width h) ;;
  point <- index points 0 ;;
  if existsb np_isnan point then Ok (zeros_r_by_0 (feature_count h))
  else Ok (array_transpose (feature_count h) (np_array points)).

Definition load_pcd_bin (file : string) : result (matrix pynum) :=
  '(meta, data_binary) <- read_meta file ;;
  h <- parse_header meta ;;
  decode_pcd h data_binary.

(** ** PointCloud.load_numpy_bin *)

(** [np.fromfile(file_name, dtype=np.float32)]: the file's whole 4-byte
    items, in order; numpy computes the item count as the file size
    divided by the item size, so up to three trailing bytes are not read. *)
Fixpoint fromfile_float32 (file : string) : list spec_float :=
  match file with
  | String a (String b (String c (String d rest))) =>
      decode_f32 (String a (String b (String c (String d EmptyString))))
      :: fromfile_float32 rest
  | _ => []
  end.

(** [scan.reshape((-1, k))] for [k > 0]: rows of [k] consecutive items;
    raises when the size is not a multiple of [k]. *)
Definition reshape_rows {A : Type} (k : nat) (scan : list A)
  : result (list (list A)) :=
  if (List.length scan mod k =? 0)%nat
  then Ok (map (fun j => firstn k (skipn (j * k) scan))
               (seq 0 (List.length scan / k)))
  else Raise (ValueError "cannot reshape array into shape (-1, k)").

Definition load_numpy_bin (file : string) : result (matrix spec_float) :=
  let scan := fromfile_float32 file in
  rs <- reshape_rows 5 scan ;;
  let points := map (firstn 4) rs in
  Ok (array_transpose 4 points).

(** ** PointCloud *)

Record PointCloud (A : Type) : Type := MkPointCloud {
  points : matrix A
}.

Arguments MkPointCloud {A} points.
Arguments points {A} p.

Definition format_msg : string :=
  "Error: Pointcloud points must have format: 4 x n".

(** [PointCloud.__init__] *)
Definition PointCloud_init {A : Type} (pts : matrix A) : result (PointCloud A) :=
  _ <- py_assert (shape0 pts =? 4)%nat format_msg ;;
  Ok (MkPointCloud pts).

Definition map_matrix {A B : Type} (f : A -> B) (m : matrix A) : matrix B :=
  Matrix (nrows m) (ncols m) (map (map f) (rows m)).

(** [PointCloud.from_file], given the name of the file and its content.
    The float32 entries of a [.bin] cloud are injected into [pynum]. *)
Definition from_file (file_name : string) (content : string)
  : result (PointCloud pynum) :=
  pts <-
    (if endswith file_name ".bin" then
       m <- load_numpy_bin content ;; Ok (map_matrix PyFloat m)
     else if endswith file_name ".pcd" then
       load_pcd_bin content
     else Raise (ValueError ("Unsupported filetype " ++ file_name))) ;;
  PointCloud_init pts.

(** [nbr_points] *)
Definition nbr_points {A : Type} (pc : PointCloud A) : nat := ncols (points pc).

(** [r[mask]] with a boolean mask. *)
Fixpoint select {A : Type} (mask : list bool) (r : list A) : list A :=
  match mask, r with
  | b :: mask', x :: r' => if b then x :: select mask' r' else select mask' r'
  | _, _ => []
  end.

(** [m[:, mask]] *)
Definition mask_columns {A : Type} (m : matrix A) (mask : list bool) : matrix A :=
  Matrix (nrows m) (count_occ bool_dec mask true) (map (select mask) (rows m)).

(** [np.abs(row) < radius], entry by entry.  [radius] is the value the
    comparison uses, in the format of the array. *)
Definition abs_lt (radius : spec_float) (row : list spec_float) : list bool :=
  map (fun x => SFltb (SFabs x) radius) row.

Definition logical_and (a b : list bool) : list bool :=
  map (fun p => andb (fst p) (snd p)) (combine a b).

Definition logical_not (a : list bool) : list bool := map negb a.

(** [PointCloud.remove_close]; returns the cloud after the update. *)
Definition remove_close (pc : PointCloud spec_float) (radius : spec_float)
  : result (PointCloud spec_float) :=
  r0 <- index (rows (points pc)) 0 ;;
  let x_filt := abs_lt radius r0 in
  r1 <- index (rows (points pc)) 1 ;;
  let y_filt := abs_lt radius r1 in
  let not_close := logical_not (logical_and x_filt y_filt) in
  Ok (MkPointCloud (mask_columns (points pc) not_close)).

(** ** Binary64 arithmetic *)

Definition fadd : spec_float -> spec_float -> spec_float := SFadd prec64 emax64.
Definition fsub : spec_float -> spec_float -> spec_float := SFsub prec64 emax64.
Definition fmul : spec_float -> spec_float -> spec_float := SFmul prec64 emax64.
Definition fdiv : spec_float -> spec_float -> spec_float := SFdiv prec64 emax64.

(** [np.isfinite] *)
Definition is_finite (f : spec_float) : bool :=
  match f with
  | S754_zero _ | S754_finite _ _ _ => true
  | _ => false
  end.

(** The default tolerances of [np.allclose], [rtol=1e-05] and
    [atol=1e-08]: the floats nearest to 1/10^5 and 1/10^8. *)
Definition rtol : spec_float :=
  Eval vm_compute in fdiv (float_of_Z 1) (float_of_Z 100000).
Definition atol : spec_float :=
  Eval vm_compute in fdiv (float_of_Z 1) (float_of_Z 100000000).

(** [np.isclose(x, y)] on one pair of entries, [equal_nan=False]:
    [abs(x - y) <= atol + rtol * abs(y)] when both are finite, and
    [x == y] otherwise (so an infinity is close to itself only, and a
    NaN to nothing). *)
Definition isclose (x y : spec_float) : bool :=
  if is_finite x && is_finite y
  then SFleb (SFabs (fsub x y)) (fadd atol (fmul rtol (SFabs y)))
  else SFeqb x y.

(** ** Box *)

Definition vec3 : Type := (spec_float * spec_float * spec_float)%type.

Definition vec3_list (v : vec3) : list spec_float :=
  let '(a, b, c) := v in [a; b; c].

(** [np.allclose(a, b)] on two arrays of the same length, given by their
    entries. *)
Definition allclose (a b : list spec_float) : bool :=
  forallb (fun p => isclose (fst p) (snd p)) (combine a b).

(** [np.all(np.isnan(a))] and [np.any(np.isnan(a))] *)
Definition all_isnan (a : list spec_float) : bool := forallb is_nan a.
Definition any_isnan (a : list spec_float) : bool := existsb is_nan a.

(** A [pyquaternion.Quaternion], by its four components. *)
Record Quaternion : Type := MkQuaternion {
  q_w : spec_float;
  q_x : spec_float;
  q_y : spec_float;
  q_z : spec_float
}.

(** [q.elements] *)
Definition elements (q : Quaternion) : list spec_float :=
  [q_w q; q_x q; q_y q; q_z q].

(** [np.isnan(v)] on a Python scalar: numpy has no dtype for an integer
    outside the 64-bit ranges and raises on it. *)
Definition np_isnan_scalar (v : pynum) : result bool :=
  match v with
  | PyFloat f => Ok (is_nan f)
  | PyInt z =>
      if (- 2 ^ 63 <=? z) && (z <? 2 ^ 64) then Ok false
      else Raise (TypeError "ufunc 'isnan' not supported for the input types")
  end.

(** [int(f)] on a float: truncation toward zero. *)
Definition int_of_float (f : spec_float) : result Z :=
  match f with
  | S754_zero _ => Ok 0
  | S754_finite s m e =>
      Ok (cond_Zopp s (if 0 <=? e then Zpos m * 2 ^ e else Zpos m / 2 ^ (- e)))
  | S754_infinity _ => Raise OverflowError
  | S754_nan => Raise (ValueError "cannot convert float NaN to integer")
  end.

(** [int(v)] and [float(v)] on a number. *)
Definition py_int_of (v : pynum) : result pynum :=
  match v with
  | PyInt z => Ok (PyInt z)
  | PyFloat f => z <- int_of_float f ;; Ok (PyInt z)
  end.

Definition py_float_of (v : pynum) : result pynum :=
  match v with
  | PyFloat f => Ok (PyFloat f)
  | PyInt z =>
      match float_of_Z z with
      | S754_infinity _ => Raise OverflowError
      | f => Ok (PyFloat f)
      end
  end.

(** [a == b] on Python numbers; an integer and a float are compared by
    value. *)
Definition float_int_eqb (f : spec_float) (z : Z) : bool :=
  match f with
  | S754_zero _ => z =? 0
  | S754_finite s m e =>
      if 0 <=? e then cond_Zopp s (Zpos m * 2 ^ e) =? z
      else (Zpos m mod 2 ^ (- e) =? 0) && (cond_Zopp s (Zpos m / 2 ^ (- e)) =? z)
  | _ => false
  end.

Definition py_eqb (a b : pynum) : bool :=
  match a, b with
  | PyInt x, PyInt y => x =? y
  | PyFloat x, PyFloat y => SFeqb x y
  | PyFloat x, PyInt y => float_int_eqb x y
  | PyInt x, PyFloat y => float_int_eqb y x
  end.

Record Box : Type := MkBox {
  center : vec3;
  wlh : vec3;
  orientation : Quaternion;
  label : pynum;
  score : pynum;
  velocity : vec3;
  name : option string
}.

Definition nan : spec_float := S754_nan.

(** [assert len(l) == 3], giving the three entries. *)
Definition assert_len3 (l : list spec_float) (msg : string) : result vec3 :=
  match l with
  | [a; b; c] => Ok (a, b, c)
  | _ => Raise (AssertionError msg)
  end.

(** [Box.__init__].  The centre and the size are given as lists, whose
    length the constructor checks; the velocity is a 3-tuple.  The
    assertion on the type of [orientation] holds by typing. *)
Definition Box_init (c size : list spec_float) (q : Quaternion)
  (lbl scr : pynum) (vel : vec3) (nm : option string) : result Box :=
  _ <- py_assert (negb (any_isnan c)) "not np.any(np.isnan(center))" ;;
  _ <- py_assert (negb (any_isnan size)) "not np.any(np.isnan(size))" ;;
  c3 <- assert_len3 c "len(center) == 3" ;;
  s3 <- assert_len3 size "len(size) == 3" ;;
  ln <- np_isnan_scalar lbl ;;
  lbl' <- (if negb ln then py_int_of lbl else Ok lbl) ;;
  sn <- np_isnan_scalar scr ;;
  scr' <- (if negb sn then py_float_of scr else Ok scr) ;;
  Ok (MkBox c3 s3 q lbl' scr' vel nm).

(** [(a == b) or (np.isnan(a) and np.isnan(b))], with Python's
    short-circuit evaluation. *)
Definition eq_or_both_nan (a b : pynum) : result bool :=
  if py_eqb a b then Ok true
  else
    na <- np_isnan_scalar a ;;
    if na then np_isnan_scalar b else Ok false.

(** The value of [vel] in [Box.__eq__] (lines 255-256). *)
Definition vel_eq (v1 v2 : vec3) : bool :=
  allclose (vec3_list v1) (vec3_list v2)
  || (all_isnan (vec3_list v1) && all_isnan (vec3_list v2)).

(** [Box.__eq__] *)
Definition Box_eq (self other : Box) : result bool :=
  let c := allclose (vec3_list (center self)) (vec3_list (center other)) in
  let s := allclose (vec3_list (wlh self)) (vec3_list (wlh other)) in
  let o := allclose (elements (orientation self)) (elements (orientation other)) in
  l <- eq_or_both_nan (label self) (label other) ;;
  sc <- eq_or_both_nan (score self) (score other) ;;
  let vel := vel_eq (velocity self) (velocity other) in
  Ok (c && s && o && l && sc && vel).

(** *** Box.corners *)

Section Corners.

(** [pyquaternion]'s [Quaternion.rotation_matrix], a 3 x 3 matrix
    given by its rows. *)
Variable rotation_matrix : Quaternion -> vec3 * vec3 * vec3.

(** [a * np.array(signs)] for a float [a] and an integer array. *)
Definition scale_signs (a : spec_float) (signs : list Z) : list spec_float :=
  map (fun s => fmul a (float_of_Z s)) signs.

Definition two : spec_float := float_of_Z 2.

(** Lines 301-306: [x_corners], [y_corners] and [z_corners]. *)
Definition corner_rows (b : Box) (wlh_factor : spec_float)
  : list spec_float * list spec_float * list spec_float :=
  let '(w0, l0, h0) := wlh b in
  let w := fmul w0 wlh_factor in
  let l := fmul l0 wlh_factor in
  let h := fmul h0 wlh_factor in
  let x_corners := scale_signs (fdiv l two) [1; 1; 1; 1; -1; -1; -1; -1] in
  let y_corners := scale_signs (fdiv w two) [1; -1; -1; 1; 1; -1; -1; 1] in
  let z_corners := scale_signs (fdiv h two) [1; 1; -1; -1; 1; 1; -1; -1] in
  (x_corners, y_corners, z_corners).

(** Line 307: the corners before rotation, a 3 x 8 array. *)
Definition local_corners (b : Box) (wlh_factor : spec_float)
  : list (list spec_float) :=
  let '(x_corners, y_corners, z_corners) := corner_rows b wlh_factor in
  [x_corners; y_corners; z_corners].

(** One entry of [np.dot(R, C)]: the products of a row of [R] with the
    entries of a column of [C], summed from left to right, each product
    and each sum rounded.  (numpy leaves the order of the sums and the
    rounding of the products to its BLAS library, which may fuse a
    product with a sum; the last bit of an entry may differ.) *)
Definition dot3 (r : vec3) (x y z : spec_float) : spec_float :=
  let '(r0, r1, r2) := r in
  fadd (fadd (fmul r0 x) (fmul r1 y)) (fmul r2 z).

(** Row [r] of [np.dot(R, C)] for [C] given by its three rows. *)
Fixpoint dot_row (r : vec3) (xs ys zs : list spec_float) : list spec_float :=
  match xs, ys, zs with
  | x :: xs', y :: ys', z :: zs' => dot3 r x y z :: dot_row r xs' ys' zs'
  | _, _, _ => []
  end.

(** [Box.corners] *)
Definition corners (b : Box) (wlh_factor : spec_float) : matrix spec_float :=
  let '(xs, ys, zs) := corner_rows b wlh_factor in
  let '(R0, R1, R2) := rotation_matrix (orientation b) in
  let '(x, y, z) := center b in
  Matrix 3 (List.length xs)
    [ map (fun v => fadd v x) (dot_row R0 xs ys zs);
      map (fun v => fadd v y) (dot_row R1 xs ys zs);
      map (fun v => fadd v z) (dot_row R2 xs ys zs) ].

End Corners.

(** ** The points of a cloud *)

(** The columns of an array given by its rows, each of [n] entries: the
    points of a cloud, in order. *)
Fixpoint columns_of {A : Type} (n : nat) (rs : list (list A)) : list (list A) :=
  match n with
  | O => []
  | S n' => column 0 rs :: columns_of n' (map (@tl A) rs)
  end.

Definition columns {A : Type} (m : matrix A) : list (list A) :=
  columns_of (ncols m) (rows m).

(** A point lies in the square gate of [remove_close]: [|x| < radius] and
    [|y| < radius], in IEEE comparison. *)
Definition in_gate (radius : spec_float) (point : list spec_float) : bool :=
  match point with
  | x :: y :: _ => SFltb (SFabs x) radius && SFltb (SFabs y) radius
  | _ => false
  end.

(** ** The payload of a Point Cloud Data file *)

(** [int(sizes[p])], where it is defined. *)
Definition size_of (sizes : list string) (p : nat) : Z :=
  match nth_error sizes p with
  | Some sp => match py_int sp with Ok n => n | Raise _ => 0 end
  | None => 0
  end.

(** The sizes of fields [p] to [p + n - 1], added up. *)
Fixpoint sum_sizes (sizes : list string) (p n : nat) : Z :=
  match n with
  | O => 0
  | S n' => size_of sizes p + sum_sizes sizes (S p) n'
  end.

(** The bytes of one point: the sum of SIZE over the fields. *)
Definition point_bytes (h : pcd_header) : Z :=
  sum_sizes (h_sizes h) 0 (feature_count h).

(** Field [p] is declared with a size [n] the table knows for its type:
    the format character [types_str[p]] reads [n] bytes. *)
Definition field_ok (sizes : list string) (types_str : string) (p : nat) (n : Z)
  : Prop :=
  exists sp c,
    nth_error sizes p = Some sp /\ py_int sp = Ok n /\
    String.get p types_str = Some c /\
    calcsize c = Some (Z.to_nat n) /\ 0 < n.

(** The value [struct.unpack] gives for field [p] read at [offset]. *)
Definition unpack_field (sizes : list string) (types_str data : string)
  (offset : Z) (p : nat) : result pynum :=
  c <- str_index types_str p ;;
  struct_unpack c (slice data offset (offset + size_of sizes p)).

Definition field_value (sizes : list string) (types_str data : string)
  (offset : Z) (p : nat) : pynum :=
  match unpack_field sizes types_str data offset p with
  | Ok v => v
  | Raise _ => PyInt 0
  end.

(** The values of fields [p] to [p + n - 1] of the point that has field
    [p] at [offset]. *)
Fixpoint fields_from (sizes : list string) (types_str data : string)
  (offset : Z) (p n : nat) : list pynum :=
  match n with
  | O => []
  | S n' =>
      field_value sizes types_str data offset p
      :: fields_from sizes types_str data (offset + size_of sizes p) (S p) n'
  end.

(** [w] consecutive points of [fc] fields, the first at [offset]. *)
Fixpoint points_from (sizes : list string) (types_str data : string)
  (fc : nat) (offset : Z) (w : nat) : list (list pynum) :=
  match w with
  | O => []
  | S w' =>
      fields_from sizes types_str data offset 0 fc
      :: points_from sizes types_str data fc
                     (offset + sum_sizes sizes 0 fc) w'
  end.

(** The first point of the payload: its fields, read one after another
    from the first byte on. *)
Definition first_point (h : pcd_header) (types_str data : string) : list pynum :=
  fields_from (h_sizes h) types_str data 0 0 (feature_count h).


(** ** The corners of a box, as the specification lists them *)

Definition signs_x : list Z := [1; 1; 1; 1; -1; -1; -1; -1].
Definition signs_y : list Z := [1; -1; -1; 1; 1; -1; -1; 1].
Definition signs_z : list Z := [1; 1; -1; -1; 1; 1; -1; -1].

(** Half the scaled length, width and height. *)
Definition half_extents (b : Box) (scale : spec_float) : vec3 :=
  let '(w, l, h) := wlh b in
  (fdiv (fmul l scale) (float_of_Z 2),
   fdiv (fmul w scale) (float_of_Z 2),
   fdiv (fmul h scale) (float_of_Z 2)).

(** Corner [i] before rotation: the half extents with the signs of
    index [i]. *)
Definition pre_corner (b : Box) (scale : spec_float) (i : nat) : vec3 :=
  let '(hl, hw, hh) := half_extents b scale in
  (fmul hl (float_of_Z (nth i signs_x 0)),
   fmul hw (float_of_Z (nth i signs_y 0)),
   fmul hh (float_of_Z (nth i signs_z 0))).

(** A point rotated by [R], then translated by [c]. *)
Definition rotate_then_translate (R : vec3 * vec3 * vec3) (c p : vec3)
  : list spec_float :=
  let '(R0, R1, R2) := R in
  let '(x, y, z) := p in
  let '(cx, cy, cz) := c in
  [fadd (dot3 R0 x y z) cx; fadd (dot3 R1 x y z) cy; fadd (dot3 R2 x y z) cz].

(** ** Sample inputs *)

Definition bytes (l : list nat) : string :=
  string_of_list_ascii (map ascii_of_nat l).

(** One LIDAR point (1.0, 2.0, 3.0, 4.0) with ring index 5.0, as
    little-endian float32: 20 bytes. *)
Definition bin_one_point : string :=
  bytes [0; 0; 128; 63;  0; 0; 0; 64;  0; 0; 64; 64;  0; 0; 128; 64;
         0; 0; 160; 64]%nat.

(** The same 20 bytes followed by one more byte: 21 bytes. *)
Definition bin_21_bytes : string := bin_one_point ++ bytes [7]%nat.

(** The same 20 bytes followed by one more float32: 24 bytes. *)
Definition bin_24_bytes : string := bin_one_point ++ bytes [0; 0; 128; 63]%nat.

Definition f32 (m : positive) (e : Z) : spec_float := S754_finite false m e.

(** A cloud of two points, (1, 1, 1000) and (4, 0, 0), both of intensity
    0, and the radius 2. *)
Definition gate_radius : spec_float := float_of_Z 2.

Definition gate_cloud : PointCloud spec_float :=
  MkPointCloud
    (Matrix 4 2 [ [float_of_Z 1; float_of_Z 4];
                  [float_of_Z 1; float_of_Z 0];
                  [float_of_Z 1000; float_of_Z 0];
                  [float_of_Z 0; float_of_Z 0] ]).

(** Velocities with all, some or no components absent. *)
Definition absent3 (v : vec3) : bool := all_isnan (vec3_list v).
Definition present3 (v : vec3) : bool := negb (any_isnan (vec3_list v)).
Definition partly_absent (v : vec3) : bool :=
  any_isnan (vec3_list v) && negb (all_isnan (vec3_list v)).

(** Component-wise agreement as the specification words it: each
    component either equal or absent on both sides. *)
Definition agree (x y : spec_float) : bool :=
  SFeqb x y || (is_nan x && is_nan y).

Definition componentwise_agree (v1 v2 : vec3) : bool :=
  forallb (fun p => agree (fst p) (snd p))
          (combine (vec3_list v1) (vec3_list v2)).

Definition fzero : spec_float := S754_zero false.
Definition fone : spec_float := float_of_Z 1.

Definition unit_quaternion : Quaternion := MkQuaternion fone fzero fzero fzero.

(** A unit box at the origin with the given velocity; label, score and
    name are left at their defaults. *)
Definition unit_box (vel : vec3) : result Box :=
  Box_init [fzero; fzero; fzero] [fone; fone; fone] unit_quaternion
           (PyFloat nan) (PyFloat nan) vel None.

(** The velocity (1.0, NaN, NaN). *)
Definition partial_velocity : vec3 := (fone, nan, nan).

Definition unit_box_of (vel : vec3) : Box :=
  MkBox (fzero, fzero, fzero) (fone, fone, fone) unit_quaternion
        (PyFloat nan) (PyFloat nan) vel None.

(** The rotation matrix of the unit quaternion. *)
Definition identity_rotation (_ : Quaternion) : vec3 * vec3 * vec3 :=
  ((fone, fzero, fzero), (fzero, fone, fzero), (fzero, fzero, fone)).

Definition half : spec_float := fdiv fone (float_of_Z 2).

(** *** Point Cloud Data files *)

Definition nl : string := String newline EmptyString.

(** A header in the layout of the docstring of [load_pcd_bin], with one
    row of points. *)
Definition pcd_header_text (fields sizes types counts width : string) : string :=
  "# .PCD v0.7 - Point Cloud Data file format" ++ nl ++
  "VERSION 0.7" ++ nl ++
  "FIELDS " ++ fields ++ nl ++
  "SIZE " ++ sizes ++ nl ++
  "TYPE " ++ types ++ nl ++
  "COUNT " ++ counts ++ nl ++
  "WIDTH " ++ width ++ nl ++
  "HEIGHT 1" ++ nl ++
  "VIEWPOINT 0 0 0 1 0 0 0" ++ nl ++
  "POINTS " ++ width ++ nl ++
  "DATA binary" ++ nl.

(** The float32 encodings of 1.0 and of a NaN, little-endian. *)
Definition le_one : list nat := [0; 0; 128; 63]%nat.
Definition le_nan : list nat := [0; 0; 192; 127]%nat.

(** Two points of one float field x = 1.0, declared with COUNT 2, and one
    byte after the payload. *)
Definition pcd_count_2 : string :=
  pcd_header_text "x" "4" "F" "2" "2" ++ bytes (le_one ++ le_one ++ [0]%nat).

(** One point of one float field, with a payload of exactly
    WIDTH * SIZE = 4 bytes; and the same followed by one more byte. *)
Definition pcd_exact : string :=
  pcd_header_text "x" "4" "F" "1" "1" ++ bytes le_one.

Definition pcd_one_more : string :=
  pcd_header_text "x" "4" "F" "1" "1" ++ bytes (le_one ++ [0]%nat).

(** Two points of one float field, the first a NaN, and one byte after
    the payload. *)
Definition pcd_first_nan : string :=
  pcd_header_text "x" "4" "F" "1" "2" ++ bytes (le_nan ++ le_one ++ [0]%nat).

(** A RADAR file with the 18 fields of the docstring and one point, all
    of whose 43 payload bytes are zero, and one byte after the payload. *)
Definition pcd_radar : string :=
  pcd_header_text
    ("x y z dyn_prop id rcs vx vy vx_comp vy_comp is_quality_valid " ++
     "ambig_state x_rms y_rms invalid_state pdh0 vx_rms vy_rms")
    "4 4 4 1 2 4 4 4 4 4 1 1 1 1 1 1 1 1"
    "F F F I I F F F F F I I I I I I I I"
    "1 1 1 1 1 1 1 1 1 1 1 1 1 1 1 1 1 1"
    "1"
  ++ bytes (repeat 0%nat 44).

(** What the reading loop and the header checks make of
    [pcd_first_nan]. *)
Definition first_nan_meta : list string :=
  [ "# .PCD v0.7 - Point Cloud Data file format"; "VERSION 0.7"; "FIELDS x";
    "SIZE 4"; "TYPE F"; "COUNT 1"; "WIDTH 2"; "HEIGHT 1";
    "VIEWPOINT 0 0 0 1 0 0 0"; "POINTS 2"; "DATA binary" ].

Definition first_nan_data : string := bytes (le_nan ++ le_one ++ [0]%nat).

Definition first_nan_header : pcd_header :=
  PcdHeader ["4"] ["F"] ["1"] 2 1 "binary".

(** ** PointCloud.translate, rotate and transform

    On clouds of float64 entries; [np.dot] is the sum of products from
    left to right, as in [corners]. *)

(** [rows[i] = r] *)
Fixpoint set_row {A : Type} (i : nat) (r : list A) (rs : list (list A))
  : list (list A) :=
  match rs, i with
  | [], _ => []
  | _ :: rs', O => r :: rs'
  | r0 :: rs', S i' => r0 :: set_row i' r rs'
  end.

(** The body of the loop of [translate]:
    [self.points[i, :] = self.points[i, :] + x[i]]. *)
Definition translate_row (x : vec3) (pc : PointCloud spec_float) (i : nat)
  : result (PointCloud spec_float) :=
  row <- index (rows (points pc)) i ;;
  xi <- index (vec3_list x) i ;;
  Ok (MkPointCloud
        (Matrix (nrows (points pc)) (ncols (points pc))
                (set_row i (map (fun v => fadd v xi) row) (rows (points pc))))).

(** [PointCloud.translate]; returns the cloud after the update. *)
Definition translate (pc : PointCloud spec_float) (x : vec3)
  : result (PointCloud spec_float) :=
  for_each (translate_row x) (py_range 3) pc.

Definition shapes_msg : string := "shapes not aligned".

(** [PointCloud.rotate]: the first three rows become
    [np.dot(rot_matrix, self.points[:3, :])]. *)
Definition rotate (pc : PointCloud spec_float) (rot_matrix : vec3 * vec3 * vec3)
  : result (PointCloud spec_float) :=
  match rows (points pc) with
  | r0 :: r1 :: r2 :: rest =>
      let '(R0, R1, R2) := rot_matrix in
      Ok (MkPointCloud
            (Matrix (nrows (points pc)) (ncols (points pc))
                    (dot_row R0 r0 r1 r2 :: dot_row R1 r0 r1 r2
                     :: dot_row R2 r0 r1 r2 :: rest)))
  | _ => Raise (ValueError shapes_msg)
  end.

Definition vec4 : Type :=
  (spec_float * spec_float * spec_float * spec_float)%type.

(** One entry of the product of a 4 x 4 matrix with a 4 x n array, with
    the order and the rounding of [dot3]. *)
Definition dot4 (t : vec4) (x y z w : spec_float) : spec_float :=
  let '(t0, t1, t2, t3) := t in
  fadd (fadd (fadd (fmul t0 x) (fmul t1 y)) (fmul t2 z)) (fmul t3 w).

Fixpoint dot4_row (t : vec4) (xs ys zs ws : list spec_float)
  : list spec_float :=
  match xs, ys, zs, ws with
  | x :: xs', y :: ys', z :: zs', w :: ws' =>
      dot4 t x y z w :: dot4_row t xs' ys' zs' ws'
  | _, _, _, _ => []
  end.

(** [PointCloud.transform]: the first three rows become the first three
    rows of the product of [transf_matrix] with the points, a row of
    ones added below them. *)
Definition transform (pc : PointCloud spec_float)
  (transf_matrix : vec4 * vec4 * vec4 * vec4)
  : result (PointCloud spec_float) :=
  match rows (points pc) with
  | r0 :: r1 :: r2 :: rest =>
      let ones := repeat (float_of_Z 1) (nbr_points pc) in
      let '(T0, T1, T2, _) := transf_matrix in
      Ok (MkPointCloud
            (Matrix (nrows (points pc)) (ncols (points pc))
                    (dot4_row T0 r0 r1 r2 ones :: dot4_row T1 r0 r1 r2 ones
                     :: dot4_row T2 r0 r1 r2 ones :: rest)))
  | _ => Raise (ValueError shapes_msg)
  end.

(** What the three operations do to one point (x, y, z, intensity). *)
Definition translate_point (x : vec3) (p : list spec_float) : list spec_float :=
  match p with
  | [px; py; pz; i] =>
      let '(x0, x1, x2) := x in [fadd px x0; fadd py x1; fadd pz x2; i]
  | _ => p
  end.

Definition rotate_point (R : vec3 * vec3 * vec3) (p : list spec_float)
  : list spec_float :=
  match p with
  | [px; py; pz; i] =>
      let '(R0, R1, R2) := R in
      [dot3 R0 px py pz; dot3 R1 px py pz; dot3 R2 px py pz; i]
  | _ => p
  end.

(** [transform]: the point with a one in the place of its intensity is
    multiplied by the first three rows of the matrix. *)
Definition transform_point (T : vec4 * vec4 * vec4 * vec4)
  (p : list spec_float) : list spec_float :=
  match p with
  | [px; py; pz; i] =>
      let '(T0, T1, T2, _) := T in
      let one := float_of_Z 1 in
      [dot4 T0 px py pz one; dot4 T1 px py pz one; dot4 T2 px py pz one; i]
  | _ => p
  end.

(** ** Box.rotate and bottom_corners *)

(** [np.dot(R, v)] for a 3 x 3 matrix and a 3-vector. *)
Definition mat_vec (R : vec3 * vec3 * vec3) (v : vec3) : vec3 :=
  let '(R0, R1, R2) := R in
  let '(x, y, z) := v in
  (dot3 R0 x y z, dot3 R1 x y z, dot3 R2 x y z).

(** [columns[:, idx]] with a list of column indices. *)
Fixpoint pick {A : Type} (idx : list nat) (r : list A) : result (list A) :=
  match idx with
  | [] => Ok []
  | i :: idx' =>
      x <- index r i ;;
      xs <- pick idx' r ;;
      Ok (x :: xs)
  end.

Fixpoint pick_rows {A : Type} (idx : list nat) (rs : list (list A))
  : result (list (list A)) :=
  match rs with
  | [] => Ok []
  | r :: rs' =>
      r' <- pick idx r ;;
      rs'' <- pick_rows idx rs' ;;
      Ok (r' :: rs'')
  end.

Section BoxMotion.

(** [pyquaternion]'s rotation matrix and product of quaternions. *)
Variable rotation_matrix : Quaternion -> vec3 * vec3 * vec3.
Variable quaternion_mul : Quaternion -> Quaternion -> Quaternion.

(** [Box.rotate]; returns the box after the update. *)
Definition Box_rotate (b : Box) (q : Quaternion) : Box :=
  MkBox (mat_vec (rotation_matrix q) (center b))
        (wlh b)
        (quaternion_mul q (orientation b))
        (label b) (score b)
        (mat_vec (rotation_matrix q) (velocity b))
        (name b).

(** [Box.bottom_corners]: [self.corners()[:, [2, 3, 7, 6]]]. *)
Definition bottom_corners (b : Box) : result (matrix spec_float) :=
  let m := corners rotation_matrix b (float_of_Z 1) in
  rs <- pick_rows [2; 3; 7; 6]%nat (rows m) ;;
  Ok (Matrix (nrows m) 4 rs).

End BoxMotion.

(** Results that are zero or above: a positive zero, a positive number,
    or positive infinity. *)
Definition nonneg_result (x : spec_float) : bool :=
  match x with
  | S754_zero false | S754_infinity false | S754_finite false _ _ => true
  | _ => false
  end.

(** A velocity close to (1, 0, 0) from one side only: its first
    component is 1.000010010005. *)
Definition near_one : spec_float :=
  fdiv (float_of_Z 1000010010005) (float_of_Z 1000000000000).

(** ** Header text *)

(** A line of text holds no newline byte. *)
Fixpoint no_newline (s : string) : bool :=
  match s with
  | EmptyString => true
  | String c s' => negb (Ascii.eqb c newline) && no_newline s'
  end.

(** A line the reading loop can take: no newline inside, and UTF-8 once
    stripped. *)
Definition header_line (l : string) : bool :=
  no_newline l && utf8_valid (strip l).

(** Lines written one after another, each ended by a newline. *)
Fixpoint unlines (ls : list string) : string :=
  match ls with
  | [] => EmptyString
  | l :: ls' => l ++ nl ++ unlines ls'
  end.

(** ** Radii that gate nothing *)

(** A radius below which no absolute value lies: NaN, a zero, or a
    negative number. *)
Definition gates_nothing (radius : spec_float) : bool :=
  match radius with
  | S754_nan | S754_zero _ => true
  | S754_infinity s | S754_finite s _ _ => s
  end.

(** *** More sample inputs *)

(** The file [pcd_count_2] with the line COUNT 1 in place of COUNT 2. *)
Definition pcd_count_1 : string :=
  pcd_header_text "x" "4" "F" "1" "2" ++ bytes (le_one ++ le_one ++ [0]%nat).

(** The header lines of both before and after the COUNT line. *)
Definition count_pre : list string :=
  [ "# .PCD v0.7 - Point Cloud Data file format"; "VERSION 0.7"; "FIELDS x";
    "SIZE 4"; "TYPE F" ].

Definition count_post : list string :=
  [ "WIDTH 2"; "HEIGHT 1"; "VIEWPOINT 0 0 0 1 0 0 0"; "POINTS 2";
    "DATA binary" ].

(** A file of one point with the four fields of a LIDAR cloud,
    (1.0, 2.0, 3.0, 4.0), and one byte after the payload. *)
Definition lidar_data : string :=
  bytes [0; 0; 128; 63;  0; 0; 0; 64;  0; 0; 64; 64;  0; 0; 128; 64; 0]%nat.

Definition pcd_lidar : string :=
  pcd_header_text "x y z intensity" "4 4 4 4" "F F F F" "1 1 1 1" "1"
  ++ lidar_data.

Definition lidar_lines : list string :=
  [ "# .PCD v0.7 - Point Cloud Data file format"; "VERSION 0.7";
    "FIELDS x y z intensity"; "SIZE 4 4 4 4"; "TYPE F F F F";
    "COUNT 1 1 1 1"; "WIDTH 1"; "HEIGHT 1"; "VIEWPOINT 0 0 0 1 0 0 0";
    "POINTS 1" ].

Definition lidar_meta : list string := (lidar_lines ++ ["DATA binary"])%list.

Definition lidar_header : pcd_header :=
  PcdHeader ["4"; "4"; "4"; "4"] ["F"; "F"; "F"; "F"] ["1"; "1"; "1"; "1"]
            1 1 "binary".

(** The two points of [pcd_first_nan] in a payload of exactly
    WIDTH * SIZE = 8 bytes. *)
Definition nan_exact_data : string := bytes (le_nan ++ le_one).

Definition pcd_nan_exact : string :=
  pcd_header_text "x" "4" "F" "1" "2" ++ nan_exact_data.

(** One point of a float field x = 1.0 and an 8-byte integer field
    id = 2^53 + 1, and one byte after the payload. *)
Definition pcd_mixed : string :=
  pcd_header_text "x id" "4 8" "F I" "1 1" "1"
  ++ bytes (le_one ++ [1; 0; 0; 0; 0; 0; 32; 0; 0]%nat).

(** The cloud [gate_cloud] without its first point. *)
Definition gate_cloud_far : PointCloud spec_float :=
  MkPointCloud
    (Matrix 4 1 [ [float_of_Z 4]; [float_of_Z 0]; [float_of_Z 0];
                  [float_of_Z 0] ]).

(** The homogeneous matrix of the translation by (1, 1, 1). *)
Definition sample_transform : vec4 * vec4 * vec4 * vec4 :=
  ((fone, fzero, fzero, fone), (fzero, fone, fzero, fone),
   (fzero, fzero, fone, fone), (fzero, fzero, fzero, fone)).

(** A product of quaternions that returns its left factor, which is the
    product with the unit quaternion on the right. *)
Definition mul_by_unit (q _ : Quaternion) : Quaternion := q.

(** * Properties *)

(** ** Lists and matrices *)

Section ListFacts.

Local Open Scope nat_scope.
Context {A : Type}.

Lemma nth_error_column (i : nat) (rs : list (list A)) :
  Forall (fun r => i < List.length r) rs ->
  forall j, nth_error (column i rs) j =
            match nth_error rs j with
            | Some r => nth_error r i
            | None => None
            end.
Proof.
  induction 1 as [|r rs Hr _ IH]; intros j.
  - destruct j; reflexivity.
  - unfold column in *. cbn [flat_map].
    destruct (nth_error r i) as [x|] eqn:E.
    + destruct j as [|j]; cbn; [now rewrite E | apply IH].
    + apply nth_error_None in E. lia.
Qed.

Lemma length_column (i : nat) (rs : list (list A)) :
  Forall (fun r => i < List.length r) rs ->
  List.length (column i rs) = List.length rs.
Proof.
  induction 1 as [|r rs Hr _ IH]; [reflexivity|].
  unfold column in *. cbn [flat_map].
  destruct (nth_error r i) eqn:E.
  - cbn. now rewrite IH.
  - apply nth_error_None in E. lia.
Qed.

Lemma nth_error_map_seq {B : Type} (f : nat -> B) (n i : nat) :
  i < n -> nth_error (map f (seq 0 n)) i = Some (f i).
Proof.
  intros Hi. rewrite nth_error_map, nth_error_seq.
  destruct (Nat.ltb_spec i n); [reflexivity | lia].
Qed.

(** A transposed array of [n] rows of [k] entries is [k] by [n]. *)
Lemma array_transpose_rectangular (k : nat) (rs : list (list A)) :
  Forall (fun r => List.length r = k) rs ->
  rectangular (array_transpose k rs).
Proof.
  intros H. split; cbn.
  - now rewrite length_map, length_seq.
  - apply Forall_forall. intros c Hc.
    apply in_map_iff in Hc as (i & <- & Hi). apply in_seq in Hi.
    apply length_column. eapply Forall_impl; [|exact H].
    cbn. intros r ->. lia.
Qed.

Lemma entry_array_transpose (k : nat) (rs : list (list A)) (i j : nat) :
  Forall (fun r => List.length r = k) rs ->
  i < k ->
  entry (array_transpose k rs) i j =
  match nth_error rs j with
  | Some r => nth_error r i
  | None => None
  end.
Proof.
  intros H Hi. unfold entry, array_transpose. cbn [rows].
  rewrite nth_error_map_seq by assumption.
  apply nth_error_column. eapply Forall_impl; [|exact H].
  cbn. intros r ->. exact Hi.
Qed.

End ListFacts.

(** ** load_numpy_bin *)

Section NumpyBin.

Local Open Scope nat_scope.

(** Induction over a byte string, four bytes at a time. *)
Lemma string_ind4 (P : string -> Prop) :
  (forall s, String.length s < 4 -> P s) ->
  (forall a b c d r, P r -> P (String a (String b (String c (String d r))))) ->
  forall s, P s.
Proof.
  intros Hshort Hstep.
  fix IH 1. intros s.
  destruct s as [|a [|b [|c [|d r]]]];
    try (apply Hshort; cbn; lia).
  apply Hstep, IH.
Qed.

Lemma substring_0_0 (s : string) : substring 0 0 s = EmptyString.
Proof. destruct s; reflexivity. Qed.

(** [np.fromfile] reads [len / 4] items. *)
Lemma length_fromfile_float32 (file : string) :
  List.length (fromfile_float32 file) = String.length file / 4.
Proof.
  induction file as [s Hs | a b c d r IH] using string_ind4.
  - rewrite Nat.div_small by assumption.
    destruct s as [|? [|? [|? [|? ?]]]]; cbn in *; try reflexivity; lia.
  - cbn [fromfile_float32 List.length String.length]. rewrite IH.
    change (S (S (S (S (String.length r))))) with (4 + String.length r).
    replace (4 + String.length r) with (String.length r + 1 * 4) by lia.
    rewrite Nat.div_add by lia. lia.
Qed.

(** Item [k] is read from bytes [4k .. 4k+3]. *)
Lemma nth_error_fromfile_float32 (file : string) (k : nat) :
  k < String.length file / 4 ->
  nth_error (fromfile_float32 file) k =
  Some (decode_f32 (substring (4 * k) 4 file)).
Proof.
  revert k.
  induction file as [s Hs | a b c d r IH] using string_ind4; intros k Hk.
  - rewrite Nat.div_small in Hk by assumption. lia.
  - destruct k as [|k].
    + cbn. now rewrite substring_0_0.
    + cbn [fromfile_float32 nth_error].
      rewrite IH.
      * replace (4 * S k) with (S (S (S (S (4 * k))))) by lia. reflexivity.
      * cbn [String.length] in Hk.
        change (S (S (S (S (String.length r))))) with (4 + String.length r) in Hk.
        replace (4 + String.length r) with (String.length r + 1 * 4) in Hk by lia.
        rewrite Nat.div_add in Hk by lia. lia.
Qed.

Lemma reshape_rows_ok {A : Type} (k : nat) (scan : list A) :
  List.length scan mod k = 0 ->
  reshape_rows k scan =
  Ok (map (fun j => firstn k (skipn (j * k) scan))
          (seq 0 (List.length scan / k))).
Proof.
  intros H. unfold reshape_rows. now rewrite H.
Qed.

Lemma reshape_rows_raises {A : Type} (k : nat) (scan : list A) :
  List.length scan mod k <> 0 ->
  reshape_rows k scan =
  Raise (ValueError "cannot reshape array into shape (-1, k)").
Proof.
  intros H. unfold reshape_rows.
  destruct (Nat.eqb_spec (List.length scan mod k) 0); [contradiction | reflexivity].
Qed.

(** Entry [i] of row [j] of the reshaped array is item [j*k + i]. *)
Lemma nth_error_reshaped_row {A : Type} (k : nat) (scan : list A) (i j : nat) :
  i < k ->
  nth_error (firstn k (skipn (j * k) scan)) i = nth_error scan (j * k + i).
Proof.
  intros Hi. rewrite nth_error_firstn.
  destruct (Nat.ltb_spec i k); [|lia].
  now rewrite nth_error_skipn.
Qed.

Lemma length_reshaped_row {A : Type} (k : nat) (scan : list A) (j : nat) :
  j < List.length scan / k -> 0 < k ->
  List.length (firstn k (skipn (j * k) scan)) = k.
Proof.
  intros Hj Hk. rewrite length_firstn, length_skipn.
  pose proof (Nat.div_mod_eq (List.length scan) k).
  assert (S j * k <= k * (List.length scan / k)) by nia.
  nia.
Qed.

Lemma fromfile_float32_mod5 (file : string) (N : nat) :
  String.length file = 20 * N ->
  List.length (fromfile_float32 file) = 5 * N.
Proof.
  intros H. rewrite length_fromfile_float32, H.
  replace (20 * N) with ((5 * N) * 4) by lia.
  now rewrite Nat.div_mul by lia.
Qed.

(** C6.  A flat buffer of [20 * N] bytes decodes to a 4 x N matrix whose
    row [i] holds field [i] (x, y, z, intensity) of every point, in input
    order: entry [(i, j)] is the float32 stored at byte [20 j + 4 i].  The
    fifth field of each point (the ring index, at byte [20 j + 16]) is in
    no row. *)
Theorem load_numpy_bin_multiple_of_20 (file : string) (N : nat) :
  String.length file = 20 * N ->
  exists m,
    load_numpy_bin file = Ok m /\
    nrows m = 4 /\ ncols m = N /\ rectangular m /\
    forall i j, i < 4 -> j < N ->
      entry m i j = Some (decode_f32 (substring (20 * j + 4 * i) 4 file)).
Proof.
  intros Hlen.
  pose proof (fromfile_float32_mod5 file N Hlen) as Hscan.
  unfold load_numpy_bin.
  rewrite reshape_rows_ok
    by (rewrite Hscan, Nat.mul_comm; apply Nat.Div0.mod_mul).
  cbn [bind]. rewrite Hscan.
  replace (5 * N / 5) with N by (rewrite Nat.mul_comm, Nat.div_mul; lia).
  set (scan := fromfile_float32 file) in *.
  set (rs := map (fun j => firstn 5 (skipn (j * 5) scan)) (seq 0 N)).
  assert (Hrows : Forall (fun r => List.length r = 4) (map (firstn 4) rs)).
  { apply Forall_forall. intros r Hr.
    apply in_map_iff in Hr as (r' & <- & Hr').
    apply in_map_iff in Hr' as (j & <- & Hj). apply in_seq in Hj.
    rewrite length_firstn, length_reshaped_row; [reflexivity | | lia].
    rewrite Hscan, Nat.mul_comm, Nat.div_mul; lia. }
  eexists. split; [reflexivity|].
  split; [reflexivity|].
  split; [cbn; unfold rs; now rewrite !length_map, length_seq|].
  split; [now apply array_transpose_rectangular|].
  intros i j Hi Hj.
  rewrite entry_array_transpose by assumption.
  unfold rs. rewrite nth_error_map, nth_error_map_seq by assumption.
  cbn [option_map].
  rewrite nth_error_firstn.
  destruct (Nat.ltb_spec i 4); [|lia].
  rewrite nth_error_reshaped_row by lia.
  unfold scan. rewrite nth_error_fromfile_float32.
  - do 3 f_equal. lia.
  - rewrite Hlen. replace (20 * N) with ((5 * N) * 4) by lia.
    rewrite Nat.div_mul by lia. lia.
Qed.

(** C2, as the code has it.  The decoder raises (numpy's [reshape]
    error) whenever the buffer does not hold a multiple of five whole
    float32 items, that is when [len / 4] is not a multiple of 5. *)
Theorem load_numpy_bin_raises (file : string) :
  (String.length file / 4) mod 5 <> 0 ->
  load_numpy_bin file =
  Raise (ValueError "cannot reshape array into shape (-1, k)").
Proof.
  intros H. unfold load_numpy_bin.
  rewrite reshape_rows_raises; [reflexivity|].
  now rewrite length_fromfile_float32.
Qed.

(** Up to three bytes after the last whole item are not read. *)
Lemma fromfile_float32_trailing (file tail : string) :
  String.length file mod 4 = 0 -> String.length tail < 4 ->
  fromfile_float32 (file ++ tail) = fromfile_float32 file.
Proof.
  intros Hf Ht.
  induction file as [s Hs | a b c d r IH] using string_ind4.
  - rewrite Nat.mod_small in Hf by assumption.
    destruct s; [|discriminate]. cbn [append].
    destruct tail as [|? [|? [|? [|? ?]]]]; cbn in *; try reflexivity; lia.
  - cbn [append fromfile_float32]. rewrite IH; [reflexivity|].
    cbn [String.length] in Hf.
    change (S (S (S (S (String.length r))))) with (4 + String.length r) in Hf.
    replace (4 + String.length r) with (String.length r + 1 * 4) in Hf by lia.
    now rewrite Nat.Div0.mod_add in Hf.
Qed.

Lemma load_numpy_bin_trailing (file tail : string) :
  String.length file mod 4 = 0 -> String.length tail < 4 ->
  load_numpy_bin (file ++ tail) = load_numpy_bin file.
Proof.
  intros Hf Ht. unfold load_numpy_bin.
  now rewrite fromfile_float32_trailing.
Qed.

End NumpyBin.

(** ** load_numpy_bin on the sample inputs *)

Section NumpyBinSamples.

Local Open Scope nat_scope.

(** The one-point buffer decodes to the 4 x 1 matrix of its first four
    fields. *)
Lemma load_numpy_bin_multiple_of_20_witness :
  String.length bin_one_point = (20 * 1)%nat /\
  exists m,
    load_numpy_bin bin_one_point = Ok m /\
    nrows m = 4%nat /\ ncols m = 1%nat /\ rectangular m /\
    forall i j, (i < 4)%nat -> (j < 1)%nat ->
      entry m i j =
      Some (decode_f32 (substring (20 * j + 4 * i) 4 bin_one_point)).
Proof.
  split; [reflexivity|].
  apply (load_numpy_bin_multiple_of_20 bin_one_point 1). reflexivity.
Defined.

(** Six float32 values cannot be reshaped into rows of five. *)
Lemma load_numpy_bin_raises_witness :
  (String.length bin_24_bytes / 4) mod 5 <> 0 /\
  load_numpy_bin bin_24_bytes =
  Raise (ValueError "cannot reshape array into shape (-1, k)").
Proof.
  assert (H : (String.length bin_24_bytes / 4) mod 5 <> 0)
    by (vm_compute; discriminate).
  split; [exact H|].
  apply (load_numpy_bin_raises bin_24_bytes H).
Defined.

(** C2 fails as stated: a buffer of 21 bytes, not a multiple of 20, is
    decoded without error, its last byte dropped. *)
Lemma load_numpy_bin_truncates_21_bytes :
  (String.length bin_21_bytes mod 20 <> 0)%nat /\
  load_numpy_bin bin_21_bytes =
  Ok (Matrix 4 1 [[f32 8388608 (-23)]; [f32 8388608 (-22)];
                  [f32 12582912 (-22)]; [f32 8388608 (-21)]]) /\
  load_numpy_bin bin_21_bytes = load_numpy_bin bin_one_point.
Proof.
  split; [vm_compute; discriminate|].
  split; reflexivity.
Qed.

End NumpyBinSamples.

(** ** remove_close *)

Section RemoveClose.

Local Open Scope nat_scope.

Lemma select_nil {A : Type} (r : list A) : select [] r = [].
Proof. reflexivity. Qed.

Lemma select_map_filter {A : Type} (f : A -> bool) (l : list A) :
  select (map f l) l = filter f l.
Proof.
  induction l as [|a l IH]; [reflexivity|].
  cbn. destruct (f a); now rewrite IH.
Qed.

Lemma length_select {A : Type} (mask : list bool) (r : list A) :
  List.length r = List.length mask ->
  List.length (select mask r) = count_occ bool_dec mask true.
Proof.
  revert r. induction mask as [|b mask IH]; intros r Hr.
  - reflexivity.
  - destruct r as [|x r]; [discriminate|]. injection Hr as Hr.
    destruct b; cbn; now rewrite IH.
Qed.

Lemma Forall_length_tl {A : Type} (n : nat) (rs : list (list A)) :
  Forall (fun r => List.length r = S n) rs ->
  Forall (fun r => List.length r = n) (map (@tl A) rs).
Proof.
  intros H. apply Forall_map. eapply Forall_impl; [|exact H].
  intros [|x r] Hr; [discriminate | now injection Hr].
Qed.

Lemma column_cons {A : Type} (i : nat) (r : list A) (rs : list (list A)) :
  column i (r :: rs) =
  (match nth_error r i with Some x => [x] | None => [] end ++ column i rs)%list.
Proof. reflexivity. Qed.

Lemma column_0_select_true {A : Type} (mask : list bool) (rs : list (list A)) :
  Forall (fun r => List.length r = S (List.length mask)) rs ->
  column 0 (map (select (true :: mask)) rs) = column 0 rs /\
  map (@tl A) (map (select (true :: mask)) rs) =
  map (select mask) (map (@tl A) rs).
Proof.
  induction 1 as [|r rs Hr _ [IH1 IH2]]; [split; reflexivity|].
  destruct r as [|x r]; [discriminate|].
  rewrite !map_cons, !column_cons, IH1, IH2. split; reflexivity.
Qed.

Lemma select_false_tl {A : Type} (mask : list bool) (rs : list (list A)) :
  Forall (fun r => List.length r = S (List.length mask)) rs ->
  map (select (false :: mask)) rs = map (select mask) (map (@tl A) rs).
Proof.
  induction 1 as [|r rs Hr _ IH]; [reflexivity|].
  destruct r as [|x r]; [discriminate|].
  rewrite !map_cons, IH. reflexivity.
Qed.

(** Masking the columns of an array keeps the masked points, whole. *)
Lemma columns_of_select {A : Type} (mask : list bool) (rs : list (list A)) :
  Forall (fun r => List.length r = List.length mask) rs ->
  columns_of (count_occ bool_dec mask true) (map (select mask) rs) =
  select mask (columns_of (List.length mask) rs).
Proof.
  revert rs. induction mask as [|b mask IH]; intros rs Hrs.
  - reflexivity.
  - cbn [List.length columns_of].
    pose proof (Forall_length_tl _ _ Hrs) as Htl.
    destruct b.
    + cbn [count_occ]. destruct (bool_dec true true) as [_|n]; [|now destruct n].
      cbn [columns_of].
      destruct (column_0_select_true mask rs Hrs) as [-> ->].
      rewrite IH by assumption. reflexivity.
    + cbn [count_occ]. destruct (bool_dec false true) as [e|_]; [discriminate|].
      rewrite select_false_tl by assumption.
      rewrite IH by assumption. reflexivity.
Qed.

(** The mask [not_close] of line 155, point by point. *)
Lemma not_close_mask (radius : spec_float) (n : nat) :
  forall (r0 r1 : list spec_float) (rest : list (list spec_float)),
    List.length r0 = n -> List.length r1 = n ->
    Forall (fun r => List.length r = n) rest ->
    logical_not (logical_and (abs_lt radius r0) (abs_lt radius r1)) =
    map (fun c => negb (in_gate radius c)) (columns_of n (r0 :: r1 :: rest)).
Proof.
  induction n as [|n IH]; intros r0 r1 rest H0 H1 Hrest.
  - destruct r0; [|discriminate]. reflexivity.
  - destruct r0 as [|x r0]; [discriminate|].
    destruct r1 as [|y r1]; [discriminate|].
    injection H0 as H0. injection H1 as H1.
    cbn [columns_of map tl].
    rewrite <- (IH r0 r1 (map (@tl _) rest))
      by (try assumption; now apply Forall_length_tl).
    reflexivity.
Qed.

Lemma mask_columns_rectangular {A : Type} (m : matrix A) (mask : list bool) :
  rectangular m -> List.length mask = ncols m ->
  rectangular (mask_columns m mask).
Proof.
  intros [Hr Hc] Hm. split; cbn.
  - now rewrite length_map.
  - apply Forall_map. eapply Forall_impl; [|exact Hc].
    cbn. intros r Hlen. apply length_select. congruence.
Qed.



(** The point (radius/2, radius/2, 1000) is removed whatever its height,
    and the point (2 radius, 0, 0) is kept. *)
Example remove_close_gate_cloud :
  remove_close gate_cloud gate_radius =
  Ok (MkPointCloud
        (Matrix 4 1 [ [float_of_Z 4]; [float_of_Z 0];
                      [float_of_Z 0]; [float_of_Z 0] ])).
Proof. reflexivity. Qed.

End RemoveClose.

(** ** Box.__eq__ *)

Section BoxEquality.

(** A NaN is close to nothing, on either side. *)
Lemma isclose_nan_l (x y : spec_float) : is_nan x = true -> isclose x y = false.
Proof. destruct x; try discriminate. intros _. reflexivity. Qed.

Lemma isclose_nan_r (x y : spec_float) : is_nan y = true -> isclose x y = false.
Proof.
  destruct y; try discriminate. intros _.
  destruct x; reflexivity.
Qed.

Lemma isclose_not_nan (x y : spec_float) :
  isclose x y = true -> is_nan x = false /\ is_nan y = false.
Proof.
  intros H. split.
  - destruct (is_nan x) eqn:E; [|reflexivity].
    now rewrite isclose_nan_l in H.
  - destruct (is_nan y) eqn:E; [|reflexivity].
    now rewrite isclose_nan_r in H.
Qed.

Lemma allclose3 (a b c a' b' c' : spec_float) :
  allclose (vec3_list (a, b, c)) (vec3_list (a', b', c')) =
  isclose a a' && isclose b b' && isclose c c'.
Proof.
  unfold allclose. cbn [vec3_list combine forallb fst snd].
  now rewrite andb_true_r, andb_assoc.
Qed.

(** The value of [vel]: true exactly when no component is absent on
    either side and all three are close, or all three are absent on both
    sides. *)
Lemma vel_eq_iff (v1 v2 : vec3) :
  vel_eq v1 v2 = true <->
  (present3 v1 = true /\ present3 v2 = true /\
   allclose (vec3_list v1) (vec3_list v2) = true) \/
  (absent3 v1 = true /\ absent3 v2 = true).
Proof.
  unfold vel_eq, present3, absent3.
  destruct v1 as [[a b] c], v2 as [[a' b'] c']. rewrite allclose3.
  unfold any_isnan, all_isnan. cbn [vec3_list existsb forallb].
  split.
  - intros H. apply orb_true_iff in H as [H|H].
    + left. apply andb_true_iff in H as [H Hc].
      apply andb_true_iff in H as [Ha Hb].
      destruct (isclose_not_nan _ _ Ha) as [-> ->].
      destruct (isclose_not_nan _ _ Hb) as [-> ->].
      destruct (isclose_not_nan _ _ Hc) as [-> ->].
      cbn. now rewrite Ha, Hb, Hc.
    + right. now apply andb_true_iff in H.
  - intros [(_ & _ & H) | [H1 H2]].
    + now rewrite H.
    + rewrite H1, H2. apply orb_true_r.
Qed.

(** A velocity with some but not all components absent equals nothing. *)
Lemma vel_eq_partly_absent_l (v1 v2 : vec3) :
  partly_absent v1 = true -> vel_eq v1 v2 = false.
Proof.
  intros H. apply andb_true_iff in H as [Hany Hall].
  apply negb_true_iff in Hall.
  destruct (vel_eq v1 v2) eqn:E; [|reflexivity].
  apply vel_eq_iff in E as [(Hp & _) | (Ha & _)].
  - unfold present3 in Hp. rewrite Hany in Hp. discriminate.
  - unfold absent3 in Ha. congruence.
Qed.

Lemma vel_eq_partly_absent_r (v1 v2 : vec3) :
  partly_absent v2 = true -> vel_eq v1 v2 = false.
Proof.
  intros H. apply andb_true_iff in H as [Hany Hall].
  apply negb_true_iff in Hall.
  destruct (vel_eq v1 v2) eqn:E; [|reflexivity].
  apply vel_eq_iff in E as [(_ & Hp & _) | (_ & Ha)].
  - unfold present3 in Hp. rewrite Hany in Hp. discriminate.
  - unfold absent3 in Ha. congruence.
Qed.

Lemma SFeqb_refl (f : spec_float) : is_nan f = false -> SFeqb f f = true.
Proof.
  unfold SFeqb.
  destruct f as [s | s | | s m e]; try discriminate; intros _.
  - reflexivity.
  - now destruct s.
  - cbn. rewrite Z.compare_refl.
    change (Pos.compare_cont Eq m m) with (Pos.compare m m).
    rewrite Pos.compare_refl. now destruct s.
Qed.

(** Label and score always compare equal to themselves. *)
Lemma eq_or_both_nan_refl (a : pynum) : eq_or_both_nan a a = Ok true.
Proof.
  unfold eq_or_both_nan. destruct a as [f | z]; cbn [py_eqb].
  - destruct (is_nan f) eqn:E.
    + destruct f; try discriminate. reflexivity.
    + now rewrite SFeqb_refl.
  - now rewrite Z.eqb_refl.
Qed.

(** When the other five components compare equal, the box comparison is
    the velocity comparison. *)
Lemma Box_eq_vel (b1 b2 : Box) :
  allclose (vec3_list (center b1)) (vec3_list (center b2)) = true ->
  allclose (vec3_list (wlh b1)) (vec3_list (wlh b2)) = true ->
  allclose (elements (orientation b1)) (elements (orientation b2)) = true ->
  eq_or_both_nan (label b1) (label b2) = Ok true ->
  eq_or_both_nan (score b1) (score b2) = Ok true ->
  Box_eq b1 b2 = Ok (vel_eq (velocity b1) (velocity b2)).
Proof.
  intros Hc Hs Ho Hl Hsc. unfold Box_eq.
  now rewrite Hc, Hs, Ho, Hl, Hsc.
Qed.

(** C5, as the code has it.  For two boxes whose center, extents,
    orientation, label and score compare equal, the boxes compare equal
    exactly when their velocities have no absent component and are close
    in all three (numpy's [allclose]), or have all three components
    absent on both sides.  So two boxes with wholly absent velocities are
    equal, and a box whose velocity is absent in some but not all
    components equals no box. *)
Theorem Box_eq_velocity (b1 b2 : Box) :
  allclose (vec3_list (center b1)) (vec3_list (center b2)) = true ->
  allclose (vec3_list (wlh b1)) (vec3_list (wlh b2)) = true ->
  allclose (elements (orientation b1)) (elements (orientation b2)) = true ->
  eq_or_both_nan (label b1) (label b2) = Ok true ->
  eq_or_both_nan (score b1) (score b2) = Ok true ->
  (Box_eq b1 b2 = Ok true <->
     (present3 (velocity b1) = true /\ present3 (velocity b2) = true /\
      allclose (vec3_list (velocity b1)) (vec3_list (velocity b2)) = true) \/
     (absent3 (velocity b1) = true /\ absent3 (velocity b2) = true)) /\
  (absent3 (velocity b1) = true -> absent3 (velocity b2) = true ->
   Box_eq b1 b2 = Ok true) /\
  (partly_absent (velocity b1) = true \/ partly_absent (velocity b2) = true ->
   Box_eq b1 b2 = Ok false).
Proof.
  intros Hc Hs Ho Hl Hsc.
  rewrite (Box_eq_vel b1 b2 Hc Hs Ho Hl Hsc).
  split; [|split].
  - rewrite <- vel_eq_iff. split; [now intros [= ->] | now intros ->].
  - intros H1 H2. f_equal. apply vel_eq_iff. now right.
  - intros [H | H]; f_equal.
    + now apply vel_eq_partly_absent_l.
    + now apply vel_eq_partly_absent_r.
Qed.

Lemma Box_eq_partly_absent_self (b : Box) :
  partly_absent (velocity b) = true -> Box_eq b b = Ok false.
Proof.
  intros H. unfold Box_eq.
  rewrite !eq_or_both_nan_refl. cbn [bind].
  rewrite (vel_eq_partly_absent_l _ _ H).
  now rewrite andb_false_r.
Qed.

Ltac case_bind :=
  match goal with
  | H : bind ?r _ = Ok _ |- _ =>
      let E := fresh "E" in
      destruct r eqn:E; cbn [bind] in H; [|discriminate H]
  end.

(** The constructor stores the velocity it is given. *)
Lemma Box_init_velocity c size q lbl scr vel nm b :
  Box_init c size q lbl scr vel nm = Ok b -> velocity b = vel.
Proof.
  unfold Box_init. intros H. repeat case_bind.
  now injection H as <-.
Qed.

(** C10.  Box equality is not reflexive at the public interface: every
    box constructed with a velocity that is absent in some but not all
    components, such as (1.0, NaN, NaN), compares unequal to itself. *)
Theorem Box_eq_not_reflexive c size q lbl scr vel nm b :
  Box_init c size q lbl scr vel nm = Ok b ->
  partly_absent vel = true ->
  Box_eq b b = Ok false.
Proof.
  intros Hb Hv. apply Box_eq_partly_absent_self.
  now rewrite (Box_init_velocity _ _ _ _ _ _ _ _ Hb).
Qed.

(** *** On the sample boxes *)

Lemma unit_box_ok (vel : vec3) : unit_box vel = Ok (unit_box_of vel).
Proof. reflexivity. Qed.

(** Velocity (1, 0, 0) against an absent velocity, on unit boxes. *)
Lemma Box_eq_velocity_witness :
  let b1 := unit_box_of (fone, fzero, fzero) in
  let b2 := unit_box_of (nan, nan, nan) in
  (Box_eq b1 b2 = Ok true <->
     (present3 (velocity b1) = true /\ present3 (velocity b2) = true /\
      allclose (vec3_list (velocity b1)) (vec3_list (velocity b2)) = true) \/
     (absent3 (velocity b1) = true /\ absent3 (velocity b2) = true)) /\
  (absent3 (velocity b1) = true -> absent3 (velocity b2) = true ->
   Box_eq b1 b2 = Ok true) /\
  (partly_absent (velocity b1) = true \/ partly_absent (velocity b2) = true ->
   Box_eq b1 b2 = Ok false).
Proof.
  exact (Box_eq_velocity (unit_box_of (fone, fzero, fzero))
                         (unit_box_of (nan, nan, nan))
                         eq_refl eq_refl eq_refl eq_refl eq_refl).
Defined.

(** Two boxes with wholly absent velocities are equal; a box with
    velocity (1, 0, 0) differs from one with absent velocity, and equals
    a box with the same velocity. *)
Example Box_eq_absent_absent :
  Box_eq (unit_box_of (nan, nan, nan)) (unit_box_of (nan, nan, nan)) = Ok true.
Proof. reflexivity. Qed.

Example Box_eq_present_absent :
  Box_eq (unit_box_of (fone, fzero, fzero)) (unit_box_of (nan, nan, nan)) = Ok false
  /\ Box_eq (unit_box_of (nan, nan, nan)) (unit_box_of (fone, fzero, fzero)) = Ok false.
Proof. split; reflexivity. Qed.

Example Box_eq_present_present :
  Box_eq (unit_box_of (fone, fzero, fzero)) (unit_box_of (fone, fzero, fzero)) = Ok true.
Proof. vm_compute. reflexivity. Qed.

(** C5 fails as stated: the velocity (1, NaN, NaN) agrees with itself
    component by component (each component equal, or absent on both
    sides), yet the two boxes compare unequal. *)
Lemma Box_eq_componentwise_fails :
  unit_box partial_velocity = Ok (unit_box_of partial_velocity) /\
  componentwise_agree partial_velocity partial_velocity = true /\
  Box_eq (unit_box_of partial_velocity) (unit_box_of partial_velocity) = Ok false.
Proof. repeat split. Qed.

(** The unit box with velocity (1.0, NaN, NaN). *)
Lemma Box_eq_not_reflexive_witness :
  unit_box partial_velocity = Ok (unit_box_of partial_velocity) /\
  partly_absent partial_velocity = true /\
  Box_eq (unit_box_of partial_velocity) (unit_box_of partial_velocity) = Ok false.
Proof.
  split; [reflexivity|]. split; [reflexivity|].
  exact (Box_eq_not_reflexive _ _ _ _ _ _ _ _
           (unit_box_ok partial_velocity) eq_refl).
Defined.

End BoxEquality.

(** ** Box.corners *)

Section CornersFacts.

Variable rotation_matrix : Quaternion -> vec3 * vec3 * vec3.

(** Rounding depends on the sign only through the sign of the result. *)
Lemma binary_round_aux_negb (s : bool) (m e : Z) (l : location) :
  binary_round_aux prec64 emax64 (negb s) m e l =
  SFopp (binary_round_aux prec64 emax64 s m e l).
Proof.
  unfold binary_round_aux.
  destruct (shr_fexp prec64 emax64 m e l) as [mrs' e'].
  destruct (shr_fexp prec64 emax64 _ e' loc_Exact) as [mrs'' e''].
  destruct (shr_m mrs''); [reflexivity | | reflexivity].
  now destruct (Z.leb e'' (Z.sub emax64 prec64)).
Qed.

(** Multiplying by -1 is negating the product by 1. *)
Lemma fmul_minus_one (a : spec_float) :
  fmul a (float_of_Z (-1)) = SFopp (fmul a (float_of_Z 1)).
Proof.
  change (float_of_Z (-1)) with (S754_finite true 4503599627370496 (-52)).
  change (float_of_Z 1) with (S754_finite false 4503599627370496 (-52)).
  destruct a as [s | s | | s m e]; try (now destruct s); try reflexivity.
  unfold fmul, SFmul.
  replace (xorb s true) with (negb (xorb s false)) by now destruct s.
  apply binary_round_aux_negb.
Qed.

(** C8.  [corners] returns a 3 x 8 array.  Column [i] is corner [i]
    before rotation, (sx_i l', sy_i w', sz_i h') with l', w', h' half the
    scaled length, width and height and the signs
    sx = +,+,+,+,-,-,-,-, sy = +,-,-,+,+,-,-,+, sz = +,+,-,-,+,+,-,-,
    multiplied by the rotation matrix of the orientation and then
    translated by the center.  Before rotation, corners 0 and 4 have the
    same y and z and opposite x. *)
Theorem Box_corners_spec (b : Box) (scale : spec_float) :
  let m := corners rotation_matrix b scale in
  nrows m = 3%nat /\ ncols m = 8%nat /\ rectangular m /\
  columns m =
    map (fun i => rotate_then_translate (rotation_matrix (orientation b))
                                        (center b) (pre_corner b scale i))
        (seq 0 8) /\
  columns_of 8 (local_corners b scale) =
    map (fun i => vec3_list (pre_corner b scale i)) (seq 0 8) /\
  (let '(x0, y0, z0) := pre_corner b scale 0 in
   pre_corner b scale 4 = (SFopp x0, y0, z0)).
Proof.
  destruct b as [[[cx cy] cz] [[w l] h] q lbl scr vel nm].
  unfold corners, local_corners, corner_rows, pre_corner, half_extents, two.
  cbn [wlh center orientation].
  destruct (rotation_matrix q) as [[R0 R1] R2].
  split; [reflexivity|]. split; [reflexivity|].
  split; [split; [reflexivity | repeat constructor]|].
  split; [reflexivity|]. split; [reflexivity|].
  cbn [nth signs_x signs_y signs_z].
  now rewrite fmul_minus_one.
Qed.

(** The corners of the unit box at the origin, unrotated. *)
Example corners_unit_box :
  corners identity_rotation (unit_box_of (nan, nan, nan)) fone =
  Matrix 3 8
    [ [half; half; half; half; SFopp half; SFopp half; SFopp half; SFopp half];
      [half; SFopp half; SFopp half; half; half; SFopp half; SFopp half; half];
      [half; half; SFopp half; SFopp half; half; half; SFopp half; SFopp half] ].
Proof. vm_compute. reflexivity. Qed.

End CornersFacts.

(** ** load_pcd_bin *)

(** Case analysis on the first step of a computation known to succeed. *)
Ltac case_ok H :=
  match type of H with
  | bind ?r _ = Ok _ =>
      let E := fresh "E" in
      destruct r eqn:E; cbn [bind] in H; [|discriminate H]
  end.

Section PcdBin.

Local Open Scope nat_scope.

(** The comprehension of line 81 selects nothing: no string differs from
    itself. *)
Lemma count_filter_nil (counts : list string) :
  filter (fun c => negb (String.eqb c c)) counts = [].
Proof.
  induction counts as [|c counts IH]; [reflexivity|].
  cbn. now rewrite String.eqb_refl.
Qed.

Lemma bind_ext {A B : Type} (r : result A) (k1 k2 : A -> result B) :
  (forall a, k1 a = k2 a) -> bind r k1 = bind r k2.
Proof. intros H. destruct r; [apply H | reflexivity]. Qed.

(** The decoding of a parsed header does not read the counts. *)
Lemma decode_pcd_counts (h : pcd_header) (counts : list string) (data : string) :
  decode_pcd (PcdHeader (h_sizes h) (h_types h) counts
                        (h_width h) (h_height h) (h_data h)) data =
  decode_pcd h data.
Proof. reflexivity. Qed.

(** The COUNT line has no effect on the outcome: whatever line stands
    sixth in the header, the file decodes or fails alike. *)
Lemma count_line_ignored (pre post : list string) (line line' data : string) :
  List.length pre = 5 ->
  (h <- parse_header (pre ++ line :: post) ;; decode_pcd h data) =
  (h <- parse_header (pre ++ line' :: post) ;; decode_pcd h data).
Proof.
  intros Hpre.
  destruct pre as [|a0 [|a1 [|a2 [|a3 [|a4 [|? ?]]]]]]; try discriminate.
  cbn [app]. unfold parse_header.
  cbn [index nth_error bind].
  rewrite !count_filter_nil.
  destruct (py_assert (startswith a0 "#") _); [|reflexivity]. cbn [bind].
  destruct (py_assert (startswith a1 "VERSION") _); [|reflexivity]. cbn [bind].
  destruct post as [|m6 post]; [reflexivity|]. cbn [index nth_error bind].
  destruct (index (split_space m6) 1); [|reflexivity]. cbn [bind].
  destruct (py_int _); [|reflexivity]. cbn [bind].
  destruct post as [|m7 post]; [reflexivity|]. cbn [index nth_error bind].
  destruct (index (split_space m7) 1); [|reflexivity]. cbn [bind].
  destruct (py_int _); [|reflexivity]. cbn [bind].
  destruct post as [|m8 [|m9 [|m10 post]]]; try reflexivity.
  cbn [index nth_error bind].
  destruct (index (split_space _) 1); [|reflexivity]. cbn [bind].
  destruct (py_assert (0 <? _)%Z _); [|reflexivity]. cbn [bind List.length Nat.eqb py_assert].
  destruct (py_assert (_ =? 1)%Z _); [|reflexivity]. cbn [bind].
  destruct (py_assert (String.eqb _ "binary") _); [|reflexivity]. cbn [bind].
  reflexivity.
Qed.

(** *** The decoding loops *)

(** The inner loop appends one value per field. *)
Lemma decode_fields_length sizes ts data (l : list nat) :
  forall point offset point' offset',
    for_each (decode_field sizes ts data) l (point, offset) = Ok (point', offset') ->
    List.length point' = List.length point + List.length l.
Proof.
  induction l as [|p l IH]; intros point offset point' offset' H.
  - injection H as <- <-. cbn. lia.
  - cbn [for_each] in H. case_ok H.
    destruct a as [pt1 off1].
    apply IH in H. rewrite H.
    unfold decode_field in E. repeat case_ok E.
    injection E as <- <-. rewrite length_app. cbn. lia.
Qed.

(** The outer loop appends one point per iteration, each with one value
    per field. *)
Lemma decode_points_loop sizes ts data fc (l : list nat) :
  forall points offset points' offset',
    for_each (decode_point sizes ts data fc) l (points, offset) =
      Ok (points', offset') ->
    exists new,
      points' = (points ++ new)%list /\
      List.length new = List.length l /\
      Forall (fun pt => List.length pt = fc) new.
Proof.
  induction l as [|i l IH]; intros points offset points' offset' H.
  - injection H as <- <-. exists []. now rewrite app_nil_r.
  - cbn [for_each] in H. case_ok H.
    destruct a as [pts1 off1].
    apply IH in H as (new & -> & Hlen & Hall).
    unfold decode_point in E. case_ok E. destruct a as [point off2].
    injection E as <- <-.
    apply decode_fields_length in E0. cbn in E0. rewrite length_seq in E0.
    exists (point :: new). repeat split.
    + now rewrite <- app_assoc.
    + cbn. now rewrite Hlen.
    + now constructor.
Qed.

(** A successful decode returns WIDTH points of [feature_count] values. *)
Lemma decode_points_shape sizes ts data fc (width : Z) points :
  decode_points sizes ts data fc width = Ok points ->
  List.length points = Z.to_nat width /\
  Forall (fun pt => List.length pt = fc) points.
Proof.
  unfold decode_points. intros H. case_ok H. destruct a as [pts off].
  injection H as <-.
  apply decode_points_loop in E as (new & -> & Hlen & Hall).
  cbn [app]. unfold py_range in Hlen. rewrite length_seq in Hlen.
  now split.
Qed.

(** A parsed header has a positive WIDTH. *)
Lemma parse_header_width meta h :
  parse_header meta = Ok h -> (0 < h_width h)%Z.
Proof.
  unfold parse_header. intros H. repeat case_ok H.
  injection H as <-. cbn [h_width].
  match goal with
  | Hw : py_assert (0 <? ?w)%Z _ = Ok _ |- _ =>
      unfold py_assert in Hw; destruct (Z.ltb_spec 0 w); [assumption | discriminate]
  end.
Qed.

Lemma load_pcd_bin_unfold file meta data h :
  read_meta file = Ok (meta, data) ->
  parse_header meta = Ok h ->
  load_pcd_bin file = decode_pcd h data.
Proof.
  intros Hm Hh. unfold load_pcd_bin. rewrite Hm. cbn [bind]. now rewrite Hh.
Qed.

(** [np.array] keeps the shape of the rows it is given. *)
Lemma length_np_array (points : list (list pynum)) :
  List.length (np_array points) = List.length points.
Proof. unfold np_array. now rewrite length_map. Qed.

Lemma Forall_length_np_array (k : nat) (points : list (list pynum)) :
  Forall (fun r => List.length r = k) points ->
  Forall (fun r => List.length r = k) (np_array points).
Proof.
  unfold np_array. intros H. apply Forall_map.
  eapply Forall_impl; [|exact H]. intros r Hr. now rewrite length_map.
Qed.

(** When the points are decoded and the first of them holds a NaN, the
    empty array is returned. *)
Lemma load_pcd_bin_nan_sentinel file meta data h ts points :
  read_meta file = Ok (meta, data) ->
  parse_header meta = Ok h ->
  types_str_of (combine (h_types h) (h_sizes h)) = Ok ts ->
  decode_points (h_sizes h) ts data (feature_count h) (h_width h) = Ok points ->
  existsb np_isnan (hd [] points) = true ->
  load_pcd_bin file = Ok (zeros_r_by_0 (feature_count h)) /\
  nrows (@zeros_r_by_0 pynum (feature_count h)) = feature_count h /\
  ncols (@zeros_r_by_0 pynum (feature_count h)) = 0 /\
  ncols (array_transpose (feature_count h) points) = Z.to_nat (h_width h) /\
  zeros_r_by_0 (feature_count h) <> array_transpose (feature_count h) points.
Proof.
  intros Hm Hh Hts Hpts Hnan.
  destruct (decode_points_shape _ _ _ _ _ _ Hpts) as [Hlen _].
  pose proof (parse_header_width _ _ Hh) as Hw.
  assert (Hcols : ncols (array_transpose (feature_count h) points) =
                  Z.to_nat (h_width h)) by exact Hlen.
  split; [|split; [reflexivity | split; [reflexivity | split; [exact Hcols|]]]].
  - rewrite (load_pcd_bin_unfold _ _ _ _ Hm Hh). unfold decode_pcd.
    rewrite Hts. cbn [bind]. rewrite Hpts. cbn [bind].
    destruct points as [|p0 points]; [cbn in Hlen; lia|].
    cbn [index nth_error bind hd] in *. now rewrite Hnan.
  - intros Heq. apply (f_equal ncols) in Heq. rewrite Hcols in Heq.
    cbn in Heq. lia.
Qed.

(** Otherwise the decoded points are returned, one per column. *)
Lemma load_pcd_bin_full file meta data h ts points :
  read_meta file = Ok (meta, data) ->
  parse_header meta = Ok h ->
  types_str_of (combine (h_types h) (h_sizes h)) = Ok ts ->
  decode_points (h_sizes h) ts data (feature_count h) (h_width h) = Ok points ->
  existsb np_isnan (hd [] points) = false ->
  load_pcd_bin file = Ok (array_transpose (feature_count h) (np_array points)) /\
  rectangular (array_transpose (feature_count h) (np_array points)).
Proof.
  intros Hm Hh Hts Hpts Hnan.
  destruct (decode_points_shape _ _ _ _ _ _ Hpts) as [Hlen Hall].
  pose proof (parse_header_width _ _ Hh) as Hw.
  split; [|now apply array_transpose_rectangular, Forall_length_np_array].
  rewrite (load_pcd_bin_unfold _ _ _ _ Hm Hh). unfold decode_pcd.
  rewrite Hts. cbn [bind]. rewrite Hpts. cbn [bind].
  destruct points as [|p0 points]; [cbn in Hlen; lia|].
  cbn [index nth_error bind hd] in *. now rewrite Hnan.
Qed.

End PcdBin.

(** ** The bounds assertion of load_pcd_bin *)

Section Bounds.
Local Open Scope nat_scope.

Lemma length_substring (a k : nat) (s : string) :
  a + k <= String.length s -> String.length (substring a k s) = k.
Proof.
  revert a k. induction s as [|c s IH]; intros a k H; cbn in H.
  - assert (a = 0) by lia. assert (k = 0) by lia. subst. reflexivity.
  - destruct a as [|a].
    + destruct k as [|k]; [reflexivity|]. cbn. rewrite IH; lia.
    + cbn. apply IH. lia.
Qed.

(** A look-up in the table yields a format of the size looked up. *)
Lemma lut_char_size (t s : string) (c : ascii) :
  lut_char t s = Ok c ->
  exists n, py_int s = Ok n /\ calcsize c = Some (Z.to_nat n) /\ (0 < n)%Z.
Proof.
  unfold lut_char, unpacking_lut. cbn [dict_get].
  destruct (String.eqb "F" t); [|destruct (String.eqb "I" t); [|destruct (String.eqb "U" t)]];
    cbn [bind]; try discriminate;
    destruct (py_int s) as [n|]; cbn [bind dict_get]; try discriminate;
    repeat match goal with
           | |- context [Z.eqb ?k n] => destruct (Z.eqb_spec k n); [subst n|]
           end;
    intros H; try discriminate H; injection H as <-;
    eexists; (split; [reflexivity|]); split; (reflexivity || lia).
Qed.

(** The fields of an accepted header. *)
Lemma types_str_fields (types sizes : list string) :
  forall ts,
    types_str_of (combine types sizes) = Ok ts ->
    List.length types <= List.length sizes ->
    forall p, p < List.length types -> field_ok sizes ts p (size_of sizes p).
Proof.
  revert sizes. induction types as [|t types IH]; intros sizes ts Hts Hlen p Hp.
  - cbn in Hp. lia.
  - destruct sizes as [|s sizes]; [cbn in Hlen; lia|].
    cbn [combine types_str_of] in Hts.
    case_ok Hts. case_ok Hts. injection Hts as <-.
    destruct (lut_char_size _ _ _ E) as (n & Hn & Hc & Hpos).
    destruct p as [|p].
    + exists s, a. unfold size_of. cbn [nth_error String.get]. rewrite Hn.
      repeat split; assumption.
    + cbn in Hlen, Hp.
      destruct (IH sizes a0 E0 ltac:(lia) p ltac:(lia))
        as (sp & c & H1 & H2 & H3 & H4 & H5).
      exists sp, c. unfold size_of in *. cbn [nth_error String.get].
      repeat split; assumption.
Qed.

Section Loops.

Variables (sizes : list string) (ts data : string).

Let len : Z := Z.of_nat (String.length data).

Lemma decode_field_ok (p : nat) (point : list pynum) (offset : Z) :
  field_ok sizes ts p (size_of sizes p) ->
  (0 <= offset)%Z -> (offset + size_of sizes p < len)%Z ->
  decode_field sizes ts data (point, offset) p =
  Ok ((point ++ [field_value sizes ts data offset p])%list,
      (offset + size_of sizes p)%Z).
Proof.
  intros (sp & c & Hs & Hi & Hg & Hc & Hn) Hoff Hlt.
  unfold decode_field, field_value, unpack_field, index, str_index.
  rewrite Hs. cbn [bind]. rewrite Hi. cbn [bind]. unfold py_assert.
  destruct (Z.ltb_spec (offset + size_of sizes p) (Z.of_nat (String.length data)));
    [|unfold len in Hlt; lia].
  cbn [bind]. rewrite Hg. cbn [bind].
  unfold struct_unpack. rewrite Hc.
  assert (Hl : String.length (slice data offset (offset + size_of sizes p)) =
               Z.to_nat (size_of sizes p)).
  { unfold slice. rewrite length_substring; lia. }
  rewrite Hl, Nat.eqb_refl. reflexivity.
Qed.

Lemma decode_field_bounds (p : nat) (point : list pynum) (offset : Z) :
  field_ok sizes ts p (size_of sizes p) ->
  (len <= offset + size_of sizes p)%Z ->
  decode_field sizes ts data (point, offset) p =
  Raise (AssertionError bounds_msg).
Proof.
  intros (sp & c & Hs & Hi & Hg & Hc & Hn) Hge.
  unfold decode_field, index. rewrite Hs. cbn [bind]. rewrite Hi.
  cbn [bind]. unfold py_assert.
  destruct (Z.ltb_spec (offset + size_of sizes p) (Z.of_nat (String.length data)));
    [unfold len in Hge; lia | reflexivity].
Qed.

Lemma sum_sizes_pos (n p : nat) :
  (forall k, p <= k < p + n -> field_ok sizes ts k (size_of sizes k)) ->
  (0 <= sum_sizes sizes p n)%Z /\ (0 < n -> (0 < sum_sizes sizes p n)%Z).
Proof.
  revert p. induction n as [|n IH]; intros p H.
  - cbn. split; lia.
  - cbn [sum_sizes].
    destruct (H p ltac:(lia)) as (_ & _ & _ & _ & _ & _ & Hpos).
    destruct (IH (S p)) as [H0 _]; [intros k Hk; apply H; lia|].
    split; lia.
Qed.

(** The inner loop: all fields are read when the last one ends before
    the last byte of the payload, and the assertion fails otherwise. *)
Lemma decode_fields_ok (n : nat) :
  forall p point offset,
    (forall k, p <= k < p + n -> field_ok sizes ts k (size_of sizes k)) ->
    (0 <= offset)%Z ->
    (0 < n -> (offset + sum_sizes sizes p n < len)%Z) ->
    for_each (decode_field sizes ts data) (seq p n) (point, offset) =
    Ok ((point ++ fields_from sizes ts data offset p n)%list,
        (offset + sum_sizes sizes p n)%Z).
Proof.
  induction n as [|n IH]; intros p point offset Hf Hoff Hlt.
  - cbn. now rewrite app_nil_r, Z.add_0_r.
  - cbn [seq for_each sum_sizes fields_from].
    pose proof (Hf p ltac:(lia)) as Hp.
    destruct (sum_sizes_pos n (S p)) as [Hs0 Hs1]; [intros k Hk; apply Hf; lia|].
    pose proof Hp as (_ & _ & _ & _ & _ & _ & Hpos).
    specialize (Hlt ltac:(lia)). cbn [sum_sizes] in Hlt.
    rewrite (decode_field_ok p point offset Hp Hoff ltac:(lia)).
    cbn [bind].
    rewrite IH; [|intros k Hk; apply Hf; lia | lia | intros; lia].
    now rewrite <- app_assoc, Z.add_assoc.
Qed.

Lemma decode_fields_bounds (n : nat) :
  forall p point offset,
    (forall k, p <= k < p + n -> field_ok sizes ts k (size_of sizes k)) ->
    (0 <= offset)%Z -> 0 < n ->
    (len <= offset + sum_sizes sizes p n)%Z ->
    for_each (decode_field sizes ts data) (seq p n) (point, offset) =
    Raise (AssertionError bounds_msg).
Proof.
  induction n as [|n IH]; intros p point offset Hf Hoff Hn Hge; [lia|].
  cbn [seq for_each sum_sizes] in *.
  pose proof (Hf p ltac:(lia)) as Hp.
  pose proof Hp as (_ & _ & _ & _ & _ & _ & Hpos).
  destruct (Z.le_gt_cases len (offset + size_of sizes p)) as [Hout | Hin].
  - now rewrite (decode_field_bounds p point offset Hp Hout).
  - rewrite (decode_field_ok p point offset Hp Hoff ltac:(lia)).
    cbn [bind].
    apply IH; [intros k Hk; apply Hf; lia | lia | | lia].
    destruct n; [cbn in Hge; lia | lia].
Qed.

Variable fc : nat.

Hypothesis fields :
  forall p, p < fc -> field_ok sizes ts p (size_of sizes p).

Let total : Z := sum_sizes sizes 0 fc.

Lemma total_pos : (0 <= total)%Z /\ (0 < fc -> (0 < total)%Z).
Proof. apply sum_sizes_pos. intros k Hk. apply fields. lia. Qed.

Lemma decode_point_ok (points : list (list pynum)) (offset : Z) (i : nat) :
  (0 <= offset)%Z -> (0 < fc -> (offset + total < len)%Z) ->
  decode_point sizes ts data fc (points, offset) i =
  Ok ((points ++ [fields_from sizes ts data offset 0 fc])%list,
      (offset + total)%Z).
Proof.
  intros Hoff Hlt. unfold decode_point.
  rewrite decode_fields_ok;
    [reflexivity | intros k Hk; apply fields; lia | assumption | assumption].
Qed.

Lemma decode_point_bounds (points : list (list pynum)) (offset : Z) (i : nat) :
  (0 <= offset)%Z -> 0 < fc -> (len <= offset + total)%Z ->
  decode_point sizes ts data fc (points, offset) i =
  Raise (AssertionError bounds_msg).
Proof.
  intros Hoff Hfc Hge. unfold decode_point.
  rewrite decode_fields_bounds;
    [reflexivity | intros k Hk; apply fields; lia | assumption.. ].
Qed.

(** The outer loop, over any list of point indices. *)
Lemma decode_loop_ok (l : list nat) :
  forall points offset,
    (0 <= offset)%Z ->
    (0 < fc -> l <> [] ->
     (offset + Z.of_nat (List.length l) * total < len)%Z) ->
    for_each (decode_point sizes ts data fc) l (points, offset) =
    Ok ((points ++ points_from sizes ts data fc offset (List.length l))%list,
        (offset + Z.of_nat (List.length l) * total)%Z).
Proof.
  pose proof total_pos as [Ht0 Ht1].
  induction l as [|i l IH]; intros points offset Hoff Hlt.
  - cbn [for_each List.length points_from]. now rewrite app_nil_r, Z.add_0_r.
  - cbn [for_each List.length points_from].
    rewrite decode_point_ok; [|assumption|].
    2:{ intros Hfc. specialize (Hlt Hfc ltac:(discriminate)).
        cbn [List.length] in Hlt. nia. }
    cbn [bind].
    rewrite IH; [|lia|].
    2:{ intros Hfc Hl. specialize (Hlt Hfc ltac:(discriminate)).
        cbn [List.length] in Hlt. nia. }
    rewrite <- app_assoc. cbn [app]. do 2 f_equal. fold total. lia.
Qed.

Lemma decode_loop_bounds (l : list nat) :
  forall points offset,
    (0 <= offset)%Z -> 0 < fc -> l <> [] ->
    (len <= offset + Z.of_nat (List.length l) * total)%Z ->
    for_each (decode_point sizes ts data fc) l (points, offset) =
    Raise (AssertionError bounds_msg).
Proof.
  pose proof total_pos as [Ht0 Ht1].
  induction l as [|i l IH]; intros points offset Hoff Hfc Hl Hge;
    [contradiction|].
  cbn [for_each].
  destruct (Z.le_gt_cases len (offset + total)) as [Hout | Hin].
  - now rewrite decode_point_bounds.
  - rewrite (decode_point_ok points offset i Hoff ltac:(lia)).
    cbn [bind]. cbn [List.length] in Hge.
    rewrite Nat2Z.inj_succ, Z.mul_succ_l in Hge.
    apply IH; [lia | assumption | | lia].
    destruct l; [cbn in Hge; lia | discriminate].
Qed.

(** Lines 92-104.  The points are decoded when the payload is longer
    than WIDTH points, each field read at its offset; with at least one
    field and one point, the bounds assertion fails otherwise. *)
Lemma decode_points_ok (width : Z) :
  (0 < fc -> (width * total < len)%Z) ->
  decode_points sizes ts data fc width =
  Ok (points_from sizes ts data fc 0 (Z.to_nat width)).
Proof.
  intros H. unfold decode_points, py_range.
  rewrite decode_loop_ok; [| lia |].
  - cbn [bind app]. now rewrite length_seq.
  - intros Hfc Hl. rewrite length_seq in *.
    destruct (Z.to_nat width) eqn:E; [now destruct Hl|].
    specialize (H Hfc). lia.
Qed.

Lemma decode_points_bounds (width : Z) :
  0 < fc -> (0 < width)%Z -> (len <= width * total)%Z ->
  decode_points sizes ts data fc width = Raise (AssertionError bounds_msg).
Proof.
  intros Hfc Hw H. unfold decode_points, py_range.
  rewrite decode_loop_bounds; [reflexivity | lia | assumption | | ].
  - destruct (Z.to_nat width) eqn:E; [lia | discriminate].
  - rewrite length_seq. lia.
Qed.

End Loops.

(** What [load_pcd_bin] returns for an accepted header, each field of
    which is declared with a size the table knows, and a payload longer
    than WIDTH points: the empty array when the first point holds a NaN,
    and otherwise the array of the points, each field read at its
    offset. *)
Lemma load_pcd_bin_decodes file meta data h ts :
  read_meta file = Ok (meta, data) ->
  parse_header meta = Ok h ->
  types_str_of (combine (h_types h) (h_sizes h)) = Ok ts ->
  feature_count h <= List.length (h_sizes h) ->
  (h_width h * point_bytes h < Z.of_nat (String.length data))%Z ->
  load_pcd_bin file =
  if existsb np_isnan (first_point h ts data)
  then Ok (zeros_r_by_0 (feature_count h))
  else Ok (array_transpose (feature_count h)
             (np_array (points_from (h_sizes h) ts data (feature_count h) 0
                                    (Z.to_nat (h_width h))))).
Proof.
  intros Hm Hh Hts Hlen Hlong.
  pose proof (parse_header_width _ _ Hh) as Hw.
  pose proof (types_str_fields _ _ _ Hts Hlen) as Hf.
  rewrite (load_pcd_bin_unfold _ _ _ _ Hm Hh). unfold decode_pcd.
  rewrite Hts. cbn [bind].
  rewrite (decode_points_ok (h_sizes h) ts data (feature_count h) Hf (h_width h))
    by (intros _; exact Hlong).
  cbn [bind].
  destruct (Z.to_nat (h_width h)) as [|w] eqn:E; [lia|].
  cbn [points_from index nth_error bind]. reflexivity.
Qed.

(** X20.  For an accepted header, each field of which is declared with a
    size the table knows, and a payload longer than WIDTH points, from
    which the points are decoded: when the first point holds a NaN in
    some field,
    [load_pcd_bin] returns the empty [feature_count] x 0 array.  That is
    a result and not an exception, and it is not the array of the decoded
    points, which has WIDTH, at least one, columns. *)
Theorem load_pcd_bin_nan_first_point file meta data h ts :
  read_meta file = Ok (meta, data) ->
  parse_header meta = Ok h ->
  types_str_of (combine (h_types h) (h_sizes h)) = Ok ts ->
  feature_count h <= List.length (h_sizes h) ->
  (h_width h * point_bytes h < Z.of_nat (String.length data))%Z ->
  existsb np_isnan (first_point h ts data) = true ->
  load_pcd_bin file = Ok (zeros_r_by_0 (feature_count h)) /\
  nrows (@zeros_r_by_0 pynum (feature_count h)) = feature_count h /\
  ncols (@zeros_r_by_0 pynum (feature_count h)) = 0 /\
  forall points : list (list pynum),
    List.length points = Z.to_nat (h_width h) ->
    zeros_r_by_0 (feature_count h) <> array_transpose (feature_count h) points.
Proof.
  intros Hm Hh Hts Hlen Hlong Hnan.
  pose proof (parse_header_width _ _ Hh) as Hw.
  rewrite (load_pcd_bin_decodes _ _ _ _ _ Hm Hh Hts Hlen Hlong), Hnan.
  repeat split.
  intros points Hp Heq. apply (f_equal ncols) in Heq. cbn in Heq. lia.
Qed.

(** For an accepted header with at least one field, each declared with a
    size the table knows, the bounds assertion fails exactly when the
    payload is not longer than WIDTH points: the last byte of the payload
    can never be read. *)
Lemma load_pcd_bin_bounds file meta data h ts :
  read_meta file = Ok (meta, data) ->
  parse_header meta = Ok h ->
  types_str_of (combine (h_types h) (h_sizes h)) = Ok ts ->
  feature_count h <= List.length (h_sizes h) ->
  0 < feature_count h ->
  load_pcd_bin file = Raise (AssertionError bounds_msg) <->
  (Z.of_nat (String.length data) <= h_width h * point_bytes h)%Z.
Proof.
  intros Hm Hh Hts Hlen Hfc.
  pose proof (parse_header_width _ _ Hh) as Hw.
  pose proof (types_str_fields _ _ _ Hts Hlen) as Hf.
  split.
  - intros H.
    destruct (Z.le_gt_cases (Z.of_nat (String.length data))
                            (h_width h * point_bytes h)) as [Hle | Hgt];
      [exact Hle|].
    rewrite (load_pcd_bin_decodes _ _ _ _ _ Hm Hh Hts Hlen) in H by lia.
    destruct (existsb np_isnan (first_point h ts data)); discriminate H.
  - intros H.
    rewrite (load_pcd_bin_unfold _ _ _ _ Hm Hh). unfold decode_pcd.
    rewrite Hts. cbn [bind].
    now rewrite (decode_points_bounds (h_sizes h) ts data (feature_count h) Hf
                   (h_width h) Hfc Hw H).
Qed.

(** In particular a payload of exactly WIDTH points is refused. *)
Lemma exact_payload_rejected file meta data h ts :
  read_meta file = Ok (meta, data) ->
  parse_header meta = Ok h ->
  types_str_of (combine (h_types h) (h_sizes h)) = Ok ts ->
  feature_count h <= List.length (h_sizes h) ->
  0 < feature_count h ->
  Z.of_nat (String.length data) = (h_width h * point_bytes h)%Z ->
  load_pcd_bin file = Raise (AssertionError bounds_msg).
Proof.
  intros Hm Hh Hts Hlen Hfc Hexact.
  apply (load_pcd_bin_bounds _ _ _ _ _ Hm Hh Hts Hlen Hfc). lia.
Qed.

End Bounds.

(** ** from_file, and the decoders on the sample files *)

Section PcdSamples.

Local Open Scope nat_scope.

(** *** from_file on a Point Cloud Data file *)

(** A decoded [.pcd] array reaches the constructor, which accepts four
    rows only. *)
Lemma from_file_pcd (file_name content : string) (m : matrix pynum) :
  endswith file_name ".bin" = false ->
  endswith file_name ".pcd" = true ->
  load_pcd_bin content = Ok m ->
  from_file file_name content =
  if nrows m =? 4 then Ok (MkPointCloud m)
  else Raise (AssertionError format_msg).
Proof.
  intros Hbin Hpcd Hm. unfold from_file. rewrite Hbin, Hpcd, Hm.
  cbn [bind]. unfold PointCloud_init, py_assert, shape0.
  now destruct (nrows m =? 4).
Qed.

Lemma from_file_pcd_18_rows (file_name content : string) (m : matrix pynum) :
  endswith file_name ".bin" = false ->
  endswith file_name ".pcd" = true ->
  load_pcd_bin content = Ok m ->
  nrows m = 18 ->
  from_file file_name content = Raise (AssertionError format_msg).
Proof.
  intros Hbin Hpcd Hm Hrows.
  rewrite (from_file_pcd _ _ _ Hbin Hpcd Hm), Hrows. reflexivity.
Qed.

(** *** The decoders on the sample files *)

(** C1, on the code: a header whose COUNT line reads [COUNT 2] is
    accepted and its payload decoded; the code raises no error. *)
Theorem load_pcd_bin_accepts_count_2 :
  (exists meta data,
      read_meta pcd_count_2 = Ok (meta, data) /\
      nth_error meta 5 = Some "COUNT 2") /\
  load_pcd_bin pcd_count_2 = Ok (Matrix 1 2 [[PyFloat fone; PyFloat fone]]).
Proof.
  split; [|vm_compute; reflexivity].
  eexists. eexists. split; vm_compute; reflexivity.
Qed.

(** C3, on the code: a payload of exactly WIDTH * SIZE bytes fails the
    bounds assertion, although no field read passes its end; one more
    byte, and the same point decodes. *)
Theorem load_pcd_bin_rejects_exact_payload :
  (exists meta data,
      read_meta pcd_exact = Ok (meta, data) /\
      nth_error meta 3 = Some "SIZE 4" /\ nth_error meta 6 = Some "WIDTH 1" /\
      String.length data = 4) /\
  load_pcd_bin pcd_exact = Raise (AssertionError bounds_msg) /\
  load_pcd_bin pcd_one_more = Ok (Matrix 1 1 [[PyFloat fone]]).
Proof.
  split; [|split; vm_compute; reflexivity].
  eexists. eexists. repeat split; vm_compute; reflexivity.
Qed.

(** C7, on the code: two points of one float field, the first of them a
    NaN, in a payload of exactly WIDTH * SIZE bytes.  The bounds
    assertion fails in the read of the last field, before the first point
    is looked at, and the empty array is not returned; with one more byte
    after the same two points it is. *)
Theorem load_pcd_bin_nan_exact_payload_raises :
  (exists meta,
      read_meta pcd_nan_exact = Ok (meta, nan_exact_data) /\
      nth_error meta 3 = Some "SIZE 4" /\ nth_error meta 6 = Some "WIDTH 2") /\
  String.length nan_exact_data = 8 /\
  struct_unpack "f" (slice nan_exact_data 0 4) = Ok (PyFloat nan) /\
  load_pcd_bin pcd_nan_exact = Raise (AssertionError bounds_msg) /\
  pcd_first_nan = pcd_nan_exact ++ bytes [0] /\
  load_pcd_bin pcd_first_nan = Ok (zeros_r_by_0 1).
Proof.
  split; [eexists; repeat split; vm_compute; reflexivity|].
  repeat split; vm_compute; reflexivity.
Qed.

(** An integer field beside a float field comes back as a float: 2^53 + 1
    is stored as 2^53. *)
Example load_pcd_bin_mixed_fields :
  load_pcd_bin pcd_mixed =
  Ok (Matrix 2 1 [ [PyFloat fone]; [PyFloat (float_of_Z (2 ^ 53))] ]).
Proof. vm_compute. reflexivity. Qed.

(** C4, on the code: the RADAR file decodes to an array of 18 rows,
    which the constructor refuses. *)
Theorem from_file_rejects_radar_pcd :
  (exists m, load_pcd_bin pcd_radar = Ok m /\ nrows m = 18 /\ ncols m = 1 /\
             rectangular m) /\
  from_file "radar.pcd" pcd_radar = Raise (AssertionError format_msg).
Proof.
  split; [|vm_compute; reflexivity].
  eexists. split; [vm_compute; reflexivity|].
  split; [reflexivity|]. split; [reflexivity|].
  split; [reflexivity | repeat constructor].
Qed.

(** Two points of one float field, the first a NaN: the 1 x 0 array. *)
Lemma load_pcd_bin_nan_first_point_witness :
  read_meta pcd_first_nan = Ok (first_nan_meta, first_nan_data) /\
  parse_header first_nan_meta = Ok first_nan_header /\
  (h_width first_nan_header * point_bytes first_nan_header <
   Z.of_nat (String.length first_nan_data))%Z /\
  first_point first_nan_header "f" first_nan_data = [PyFloat nan] /\
  load_pcd_bin pcd_first_nan = Ok (zeros_r_by_0 1).
Proof.
  assert (Hm : read_meta pcd_first_nan = Ok (first_nan_meta, first_nan_data))
    by (vm_compute; reflexivity).
  assert (Hh : parse_header first_nan_meta = Ok first_nan_header)
    by (vm_compute; reflexivity).
  assert (Hl : (h_width first_nan_header * point_bytes first_nan_header <
                Z.of_nat (String.length first_nan_data))%Z)
    by (vm_compute; reflexivity).
  split; [exact Hm|]. split; [exact Hh|]. split; [exact Hl|].
  split; [vm_compute; reflexivity|].
  exact (proj1 (load_pcd_bin_nan_first_point
                  pcd_first_nan first_nan_meta first_nan_data first_nan_header
                  "f" Hm Hh eq_refl (le_n 1) Hl eq_refl)).
Defined.

End PcdSamples.

(** ** The bounds assertion and the COUNT line *)

Section PcdOutcome.

Local Open Scope nat_scope.

(** X1.  For an accepted header with at least one field, each declared
    with a size the table knows, [load_pcd_bin] returns an array exactly
    when the payload is longer than WIDTH points, and fails on the
    bounds assertion otherwise: a payload of exactly WIDTH points, or a
    shorter one, is never decoded. *)
Theorem load_pcd_bin_succeeds_iff file meta data h ts :
  read_meta file = Ok (meta, data) ->
  parse_header meta = Ok h ->
  types_str_of (combine (h_types h) (h_sizes h)) = Ok ts ->
  feature_count h <= List.length (h_sizes h) ->
  0 < feature_count h ->
  ((exists m, load_pcd_bin file = Ok m) <->
   (h_width h * point_bytes h < Z.of_nat (String.length data))%Z) /\
  ((Z.of_nat (String.length data) <= h_width h * point_bytes h)%Z ->
   load_pcd_bin file = Raise (AssertionError bounds_msg)).
Proof.
  intros Hm Hh Hts Hlen Hfc.
  pose proof (load_pcd_bin_bounds _ _ _ _ _ Hm Hh Hts Hlen Hfc) as Hb.
  split; [split|].
  - intros [m Hok].
    destruct (Z.le_gt_cases (Z.of_nat (String.length data))
                            (h_width h * point_bytes h)) as [Hle | Hgt];
      [|lia].
    apply Hb in Hle. congruence.
  - intros Hlong.
    rewrite (load_pcd_bin_decodes _ _ _ _ _ Hm Hh Hts Hlen Hlong).
    destruct (existsb np_isnan (first_point h ts data)); eauto.
  - apply Hb.
Qed.

(** X2.  The COUNT line of the header is never checked: two files that
    differ in their sixth header line only decode to the same array, or
    fail with the same error. *)
Theorem load_pcd_bin_ignores_count file file' pre line line' post data :
  read_meta file = Ok ((pre ++ line :: post)%list, data) ->
  read_meta file' = Ok ((pre ++ line' :: post)%list, data) ->
  List.length pre = 5 ->
  load_pcd_bin file = load_pcd_bin file'.
Proof.
  intros Hm Hm' Hpre. unfold load_pcd_bin. rewrite Hm, Hm'. cbn [bind].
  now apply count_line_ignored.
Qed.

End PcdOutcome.

(** ** The integers of struct.unpack *)

Section IntRange.

Lemma le_uint_range (s : string) :
  (0 <= le_uint s < 256 ^ Z.of_nat (String.length s))%Z.
Proof.
  induction s as [|c s IH].
  - cbn. lia.
  - cbn [le_uint String.length]. rewrite Nat2Z.inj_succ, Z.pow_succ_r by lia.
    assert (Hc : (0 <= byte_val c < 256)%Z).
    { unfold byte_val. pose proof (N_ascii_bounded c). lia. }
    lia.
Qed.

Lemma calcsize_le_8 (c : ascii) (n : nat) :
  calcsize c = Some n -> (1 <= n <= 8)%nat.
Proof.
  destruct c as [[] [] [] [] [] [] [] []]; cbn; intros [= <-]; lia.
Qed.

(** The integers [struct.unpack] returns lie between -2^63 and 2^64. *)
Lemma struct_unpack_int_range (c : ascii) (buf : string) (z : Z) :
  struct_unpack c buf = Ok (PyInt z) -> (- 2 ^ 63 <= z < 2 ^ 64)%Z.
Proof.
  unfold struct_unpack. destruct (calcsize c) as [n|] eqn:Hc; [|discriminate].
  destruct (String.length buf =? n)%nat eqn:Hl; [|discriminate].
  apply Nat.eqb_eq in Hl. apply calcsize_le_8 in Hc. cbn [negb].
  pose proof (le_uint_range buf) as Hu. rewrite Hl in Hu.
  assert (Hp : (256 ^ Z.of_nat n <= 2 ^ 64)%Z).
  { change 256%Z with (2 ^ 8)%Z. rewrite <- Z.pow_mul_r by lia.
    apply Z.pow_le_mono_r; lia. }
  assert (Hs : (- 2 ^ 63 <= le_sint buf < 2 ^ 63)%Z).
  { unfold le_sint. rewrite Hl.
    assert (H8 : (2 ^ (8 * Z.of_nat n) = 2 * 2 ^ (8 * Z.of_nat n - 1))%Z).
    { rewrite <- Z.pow_succ_r by lia. f_equal. lia. }
    assert (Hq : (2 ^ (8 * Z.of_nat n - 1) <= 2 ^ 63)%Z)
      by (apply Z.pow_le_mono_r; lia).
    replace (256 ^ Z.of_nat n)%Z with (2 ^ (8 * Z.of_nat n))%Z in Hu
      by (change 256%Z with (2 ^ 8)%Z; now rewrite <- Z.pow_mul_r by lia).
    destruct (le_uint buf <? 2 ^ (8 * Z.of_nat n - 1))%Z eqn:E;
      [apply Z.ltb_lt in E | apply Z.ltb_ge in E]; lia. }
  intros H. injection H as H.
  destruct c as [[] [] [] [] [] [] [] []]; try discriminate H;
    injection H as <-; lia.
Qed.

End IntRange.

(** ** More on load_pcd_bin *)

Section PcdMore.

Local Open Scope nat_scope.

(** Every (TYPE, SIZE) pair the table accepted describes its field. *)
Lemma types_str_fields_zip (types sizes : list string) :
  forall ts,
    types_str_of (combine types sizes) = Ok ts ->
    forall p, p < List.length types -> p < List.length sizes ->
              field_ok sizes ts p (size_of sizes p).
Proof.
  revert sizes. induction types as [|t types IH]; intros sizes ts Hts p Hp Hs.
  - cbn in Hp. lia.
  - destruct sizes as [|s sizes]; [cbn in Hs; lia|].
    cbn [combine types_str_of] in Hts.
    case_ok Hts. case_ok Hts. injection Hts as <-.
    destruct (lut_char_size _ _ _ E) as (n & Hn & Hc & Hpos).
    destruct p as [|p].
    + exists s, a. unfold size_of. cbn [nth_error String.get]. rewrite Hn.
      repeat split; assumption.
    + cbn in Hs, Hp.
      destruct (IH sizes a0 E0 p ltac:(lia) ltac:(lia))
        as (sp & c & H1 & H2 & H3 & H4 & H5).
      exists sp, c. unfold size_of in *. cbn [nth_error String.get].
      repeat split; assumption.
Qed.

(** When SIZE lists fewer fields than the loop asks for, the inner loop
    stops at the bounds assertion or at the missing size. *)
Lemma decode_fields_short sizes ts data (n : nat) :
  forall p point offset,
    (forall k, p <= k -> k < List.length sizes ->
               field_ok sizes ts k (size_of sizes k)) ->
    (0 <= offset)%Z -> p <= List.length sizes -> List.length sizes < p + n ->
    for_each (decode_field sizes ts data) (seq p n) (point, offset) =
      Raise (AssertionError bounds_msg) \/
    for_each (decode_field sizes ts data) (seq p n) (point, offset) =
      Raise IndexError.
Proof.
  induction n as [|n IH]; intros p point offset Hf Hoff Hp Hn; [lia|].
  cbn [seq for_each].
  destruct (Nat.eq_dec p (List.length sizes)) as [-> | Hne].
  - right. unfold decode_field, index.
    rewrite (proj2 (nth_error_None sizes (List.length sizes)) (le_n _)).
    reflexivity.
  - pose proof (Hf p (le_n _) ltac:(lia)) as Hfp.
    pose proof Hfp as (_ & _ & _ & _ & _ & _ & Hpos).
    destruct (Z.le_gt_cases (Z.of_nat (String.length data))
                            (offset + size_of sizes p)) as [Hout | Hin].
    + left. now rewrite (decode_field_bounds sizes ts data p point offset Hfp Hout).
    + rewrite (decode_field_ok sizes ts data p point offset Hfp Hoff ltac:(lia)).
      cbn [bind]. apply IH; [intros k Hk Hl; apply Hf; lia | lia | lia | lia].
Qed.

Lemma length_fields_from sizes ts data (n : nat) :
  forall offset p, List.length (fields_from sizes ts data offset p n) = n.
Proof.
  induction n as [|n IH]; intros offset p; [reflexivity|].
  cbn [fields_from List.length]. now rewrite IH.
Qed.


Lemma length_points_from sizes ts data fc (w : nat) :
  forall offset, List.length (points_from sizes ts data fc offset w) = w.
Proof.
  induction w as [|w IH]; intros offset; [reflexivity|].
  cbn [points_from List.length]. now rewrite IH.
Qed.

Lemma Forall_points_from sizes ts data fc (w : nat) :
  forall offset,
    Forall (fun pt => List.length pt = fc) (points_from sizes ts data fc offset w).
Proof.
  induction w as [|w IH]; intros offset; [constructor|].
  cbn [points_from]. constructor; [apply length_fields_from | apply IH].
Qed.


Lemma zeros_rectangular {A : Type} (r : nat) : rectangular (@zeros_r_by_0 A r).
Proof.
  split; cbn.
  - apply repeat_length.
  - apply Forall_forall. intros x Hx. now apply repeat_spec in Hx as ->.
Qed.

(** What [load_pcd_bin] returns when the points are decoded; with no
    field at all, any payload will do. *)
Lemma load_pcd_bin_decodes_gen file meta data h ts :
  read_meta file = Ok (meta, data) ->
  parse_header meta = Ok h ->
  types_str_of (combine (h_types h) (h_sizes h)) = Ok ts ->
  feature_count h <= List.length (h_sizes h) ->
  (0 < feature_count h ->
   (h_width h * point_bytes h < Z.of_nat (String.length data))%Z) ->
  load_pcd_bin file =
  if existsb np_isnan (first_point h ts data)
  then Ok (zeros_r_by_0 (feature_count h))
  else Ok (array_transpose (feature_count h)
             (np_array (points_from (h_sizes h) ts data (feature_count h) 0
                                    (Z.to_nat (h_width h))))).
Proof.
  intros Hm Hh Hts Hlen Hlong.
  pose proof (parse_header_width _ _ Hh) as Hw.
  pose proof (types_str_fields _ _ _ Hts Hlen) as Hf.
  rewrite (load_pcd_bin_unfold _ _ _ _ Hm Hh). unfold decode_pcd.
  rewrite Hts. cbn [bind].
  rewrite (decode_points_ok (h_sizes h) ts data (feature_count h) Hf (h_width h))
    by exact Hlong.
  cbn [bind].
  destruct (Z.to_nat (h_width h)) as [|w] eqn:E; [lia|].
  cbn [points_from index nth_error bind]. reflexivity.
Qed.




(** X4.  Once the header is accepted and every (TYPE, SIZE) pair is in
    the table, [load_pcd_bin] has three outcomes only: a rectangular
    array of [feature_count] rows and either no column or WIDTH columns;
    the bounds assertion; or [IndexError], and that only when SIZE lists
    fewer fields than TYPE.  In particular [struct.unpack] is never
    given a buffer of the wrong size. *)
Theorem load_pcd_bin_outcomes file meta data h ts :
  read_meta file = Ok (meta, data) ->
  parse_header meta = Ok h ->
  types_str_of (combine (h_types h) (h_sizes h)) = Ok ts ->
  (exists m, load_pcd_bin file = Ok m /\ nrows m = feature_count h /\
             rectangular m /\
             (ncols m = 0 \/ ncols m = Z.to_nat (h_width h))) \/
  load_pcd_bin file = Raise (AssertionError bounds_msg) \/
  (load_pcd_bin file = Raise IndexError /\
   List.length (h_sizes h) < feature_count h).
Proof.
  intros Hm Hh Hts.
  pose proof (parse_header_width _ _ Hh) as Hw.
  destruct (le_lt_dec (feature_count h) (List.length (h_sizes h))) as [Hlen | Hshort].
  - pose proof (types_str_fields _ _ _ Hts Hlen) as Hf.
    destruct (Nat.eq_dec (feature_count h) 0) as [Hz | Hnz];
      [|destruct (Z.le_gt_cases (Z.of_nat (String.length data))
                                (h_width h * point_bytes h)) as [Hout | Hin]].
    + left.
      rewrite (load_pcd_bin_decodes_gen _ _ _ _ _ Hm Hh Hts Hlen) by lia.
      destruct (existsb np_isnan (first_point h ts data)); eexists;
        (split; [reflexivity|]); (split; [reflexivity|]).
      * split; [apply zeros_rectangular | now left].
      * split; [apply array_transpose_rectangular, Forall_length_np_array,
                      Forall_points_from|].
        right. cbn. rewrite length_np_array. apply length_points_from.
    + right. left.
      rewrite (load_pcd_bin_unfold _ _ _ _ Hm Hh). unfold decode_pcd.
      rewrite Hts. cbn [bind].
      now rewrite (decode_points_bounds (h_sizes h) ts data (feature_count h) Hf
                     (h_width h) ltac:(lia) Hw Hout).
    + left.
      rewrite (load_pcd_bin_decodes_gen _ _ _ _ _ Hm Hh Hts Hlen) by (intros _; lia).
      destruct (existsb np_isnan (first_point h ts data)); eexists;
        (split; [reflexivity|]); (split; [reflexivity|]).
      * split; [apply zeros_rectangular | now left].
      * split; [apply array_transpose_rectangular, Forall_length_np_array,
                      Forall_points_from|].
        right. cbn. rewrite length_np_array. apply length_points_from.
  - right.
    rewrite (load_pcd_bin_unfold _ _ _ _ Hm Hh). unfold decode_pcd.
    rewrite Hts. cbn [bind]. unfold decode_points, py_range.
    destruct (Z.to_nat (h_width h)) as [|w] eqn:E; [lia|].
    assert (Hinner := decode_fields_short (h_sizes h) ts data (feature_count h)
                        0 [] 0%Z).
    cbn [seq for_each]. unfold decode_point.
    destruct Hinner as [Hi | Hi]; try lia.
    + intros k _ Hk. apply (types_str_fields_zip _ _ _ Hts);
        [unfold feature_count in Hshort; lia | assumption].
    + left. rewrite Hi. reflexivity.
    + right. rewrite Hi. split; [reflexivity | exact Hshort].
Qed.

End PcdMore.

(** ** The reading loop *)

Section ReadMeta.

Lemma append_empty_r (s : string) : s ++ EmptyString = s.
Proof. induction s as [|c s IH]; [reflexivity|]. cbn. now rewrite IH. Qed.

Lemma append_assoc_s (a b c : string) : (a ++ b) ++ c = a ++ (b ++ c).
Proof. induction a as [|x a IH]; [reflexivity|]. cbn. now rewrite IH. Qed.

Lemma rstrip_app_space (sp : ascii -> bool) (c : ascii) (t : string) :
  sp c = true ->
  rstrip_by sp (t ++ String c EmptyString) = rstrip_by sp t.
Proof.
  intros Hc. induction t as [|b t IH].
  - cbn. now rewrite Hc.
  - cbn [append rstrip_by]. now rewrite IH.
Qed.

(** Stripping forgets a trailing space, the newline of a line among them. *)
Lemma strip_app_space (sp : ascii -> bool) (c : ascii) (s : string) :
  sp c = true ->
  strip_by sp (s ++ String c EmptyString) = strip_by sp s.
Proof.
  intros Hc. unfold strip_by. induction s as [|a s IH].
  - cbn. now rewrite Hc.
  - cbn [append lstrip_by]. destruct (sp a); [exact IH|].
    apply (rstrip_app_space sp c (String a s) Hc).
Qed.

(** One pass of the loop over a line and its newline. *)
Lemma read_lines_line (l : string) :
  forall cur rest meta,
    no_newline l = true ->
    read_lines (l ++ String newline rest) cur meta =
    (line <- decode_utf8 (strip (cur ++ l)) ;;
     if startswith line "DATA" then Ok ((meta ++ [line])%list, rest)
     else read_lines rest EmptyString (meta ++ [line])%list).
Proof.
  induction l as [|c l IH]; intros cur rest meta Hl.
  - cbn [append read_lines]. rewrite Ascii.eqb_refl, append_empty_r.
    unfold strip. now rewrite strip_app_space.
  - cbn [no_newline] in Hl. apply andb_true_iff in Hl as [Hc Hl].
    apply negb_true_iff in Hc.
    cbn [append read_lines]. rewrite Hc, IH by assumption.
    now rewrite append_assoc_s.
Qed.

Lemma read_lines_header (ls : list string) (d payload : string) :
  forall meta,
    Forall (fun l => header_line l = true /\
                     startswith (strip l) "DATA" = false) ls ->
    header_line d = true -> startswith (strip d) "DATA" = true ->
    read_lines (unlines (ls ++ [d]) ++ payload) EmptyString meta =
    Ok ((meta ++ map strip ls ++ [strip d])%list, payload).
Proof.
  induction ls as [|l ls IH]; intros meta Hls Hd Hdata.
  - cbn [app unlines map]. unfold nl.
    rewrite !append_assoc_s. cbn [append].
    apply andb_true_iff in Hd as [Hn Hu].
    rewrite read_lines_line by assumption. cbn [append].
    unfold decode_utf8. rewrite Hu. cbn [bind]. now rewrite Hdata.
  - apply Forall_cons_iff in Hls as [[Hl Hnot] Hls].
    cbn [app unlines map]. unfold nl.
    rewrite !append_assoc_s. cbn [append].
    apply andb_true_iff in Hl as [Hn Hu].
    rewrite read_lines_line by assumption. cbn [append].
    unfold decode_utf8. rewrite Hu. cbn [bind]. rewrite Hnot.
    rewrite IH by assumption. now rewrite <- app_assoc.
Qed.

(** X5.  The reading loop splits a file into its header and its payload.
    For header lines without a newline inside that are UTF-8 once
    stripped, the last of them the first to start with [DATA], the header
    is returned line by line, stripped, and the payload byte for byte:
    nothing in the payload is read as text, whatever bytes it holds. *)
Theorem read_meta_header_payload (ls : list string) (d payload : string) :
  Forall (fun l => header_line l = true /\
                   startswith (strip l) "DATA" = false) ls ->
  header_line d = true -> startswith (strip d) "DATA" = true ->
  read_meta (unlines (ls ++ [d]) ++ payload) =
  Ok ((map strip ls ++ [strip d])%list, payload).
Proof.
  intros Hls Hd Hdata. unfold read_meta.
  now rewrite read_lines_header.
Qed.

End ReadMeta.

(** ** More on load_numpy_bin and from_file *)

Section FromFile.

Local Open Scope nat_scope.

(** The rows [reshape((-1, 5))[:, :4]] of an array of [5 N] items. *)
Lemma Forall_length_points4 {A : Type} (scan : list A) (N : nat) :
  List.length scan = 5 * N ->
  Forall (fun r => List.length r = 4)
         (map (firstn 4)
              (map (fun j => firstn 5 (skipn (j * 5) scan)) (seq 0 N))).
Proof.
  intros Hscan. apply Forall_forall. intros r Hr.
  apply in_map_iff in Hr as (r' & <- & Hr').
  apply in_map_iff in Hr' as (k & <- & Hk). apply in_seq in Hk.
  rewrite length_firstn, length_reshaped_row; [reflexivity | | lia].
  rewrite Hscan, Nat.mul_comm, Nat.div_mul; lia.
Qed.

(** The decoder on a buffer of [5 N] whole items and up to three more
    bytes. *)
Lemma load_numpy_bin_whole_items (file : string) (N : nat) :
  String.length file / 4 = 5 * N ->
  load_numpy_bin file =
    Ok (array_transpose 4
          (map (firstn 4)
               (map (fun j => firstn 5 (skipn (j * 5) (fromfile_float32 file)))
                    (seq 0 N)))) /\
  forall i j, i < 4 -> j < N ->
    entry (array_transpose 4
             (map (firstn 4)
                  (map (fun j => firstn 5 (skipn (j * 5) (fromfile_float32 file)))
                       (seq 0 N)))) i j =
    Some (decode_f32 (substring (20 * j + 4 * i) 4 file)).
Proof.
  intros Hlen.
  assert (Hscan : List.length (fromfile_float32 file) = 5 * N)
    by now rewrite length_fromfile_float32.
  split.
  - unfold load_numpy_bin.
    rewrite reshape_rows_ok
      by (rewrite Hscan, Nat.mul_comm; apply Nat.Div0.mod_mul).
    cbn [bind]. rewrite Hscan.
    replace (5 * N / 5) with N by (rewrite Nat.mul_comm, Nat.div_mul; lia).
    reflexivity.
  - intros i j Hi Hj.
    rewrite entry_array_transpose; [| |assumption].
    + rewrite nth_error_map, nth_error_map_seq by assumption.
      cbn [option_map]. rewrite nth_error_firstn.
      destruct (Nat.ltb_spec i 4); [|lia].
      rewrite nth_error_reshaped_row by lia.
      rewrite nth_error_fromfile_float32 by (rewrite Hlen; lia).
      do 3 f_equal. lia.
    + now apply Forall_length_points4.
Qed.

(** X6.  [load_numpy_bin] succeeds exactly when the buffer holds a
    multiple of five whole float32 items; the result then has four rows
    and one column for every twenty bytes, the one to three bytes that
    may follow the last item being ignored. *)
Theorem load_numpy_bin_succeeds_iff (file : string) :
  ((exists m, load_numpy_bin file = Ok m) <->
   (String.length file / 4) mod 5 = 0) /\
  forall m, load_numpy_bin file = Ok m ->
            nrows m = 4 /\ ncols m = String.length file / 20 /\ rectangular m.
Proof.
  assert (Hdiv : String.length file / 20 = String.length file / 4 / 5)
    by (now rewrite Nat.Div0.div_div).
  split; [split|].
  - intros [m Hm].
    destruct (Nat.eq_dec ((String.length file / 4) mod 5) 0) as [E | E];
      [exact E|].
    unfold load_numpy_bin in Hm.
    rewrite reshape_rows_raises in Hm by (now rewrite length_fromfile_float32).
    discriminate Hm.
  - intros E.
    destruct (load_numpy_bin_whole_items file (String.length file / 4 / 5))
      as [-> _]; [|eexists; reflexivity].
    pose proof (Nat.div_mod_eq (String.length file / 4) 5). lia.
  - intros m Hm.
    destruct (Nat.eq_dec ((String.length file / 4) mod 5) 0) as [E | E].
    + destruct (load_numpy_bin_whole_items file (String.length file / 4 / 5))
        as [Hok _].
      { pose proof (Nat.div_mod_eq (String.length file / 4) 5). lia. }
      rewrite Hok in Hm. injection Hm as <-.
      split; [reflexivity|]. split.
      * cbn. now rewrite !length_map, length_seq.
      * apply array_transpose_rectangular.
        apply (Forall_length_points4 _ (String.length file / 4 / 5)).
        rewrite length_fromfile_float32.
        pose proof (Nat.div_mod_eq (String.length file / 4) 5). lia.
    + unfold load_numpy_bin in Hm.
      rewrite reshape_rows_raises in Hm by (now rewrite length_fromfile_float32).
      discriminate Hm.
Qed.

Lemma entry_map_matrix {A B : Type} (f : A -> B) (m : matrix A) (i j : nat) :
  entry (map_matrix f m) i j = option_map f (entry m i j).
Proof.
  unfold entry, map_matrix. cbn [rows].
  rewrite nth_error_map. destruct (nth_error (rows m) i) as [r|]; [|reflexivity].
  cbn [option_map]. now rewrite nth_error_map.
Qed.

(** X7.  [from_file] on a [.bin] name and a buffer of [5 N] whole float32
    items returns a cloud of [N] points whose entry [(i, j)], for the
    four rows x, y, z and intensity, is the float32 at byte
    [20 j + 4 i]; the constructor accepts it. *)
Theorem from_file_bin (file_name content : string) (N : nat) :
  endswith file_name ".bin" = true ->
  String.length content / 4 = 5 * N ->
  exists pc,
    from_file file_name content = Ok pc /\
    nrows (points pc) = 4 /\ nbr_points pc = N /\
    forall i j, i < 4 -> j < N ->
      entry (points pc) i j =
      Some (PyFloat (decode_f32 (substring (20 * j + 4 * i) 4 content))).
Proof.
  intros Hbin Hlen.
  destruct (load_numpy_bin_whole_items content N Hlen) as [Hok Hentry].
  unfold from_file. rewrite Hbin, Hok. cbn [bind].
  eexists. split; [reflexivity|]. cbn [points].
  split; [reflexivity|]. split.
  - unfold nbr_points. cbn. now rewrite !length_map, length_seq.
  - intros i j Hi Hj. rewrite entry_map_matrix, Hentry by assumption.
    reflexivity.
Qed.

(** X8.  [from_file] on a [.pcd] name, an accepted header and a payload
    from which the points are decoded, returns a cloud exactly when the
    header declares four fields; with any other number of fields, the 18
    of a RADAR file among them, the constructor's assertion fails. *)
Theorem from_file_pcd_four_fields file_name content meta data h ts :
  endswith file_name ".bin" = false ->
  endswith file_name ".pcd" = true ->
  read_meta content = Ok (meta, data) ->
  parse_header meta = Ok h ->
  types_str_of (combine (h_types h) (h_sizes h)) = Ok ts ->
  feature_count h <= List.length (h_sizes h) ->
  (h_width h * point_bytes h < Z.of_nat (String.length data))%Z ->
  ((exists pc, from_file file_name content = Ok pc) <-> feature_count h = 4) /\
  (feature_count h <> 4 ->
   from_file file_name content = Raise (AssertionError format_msg)).
Proof.
  intros Hbin Hpcd Hm Hh Hts Hlen Hlong.
  pose proof (load_pcd_bin_decodes _ _ _ _ _ Hm Hh Hts Hlen Hlong) as Hload.
  assert (Hrows : exists m, load_pcd_bin content = Ok m /\
                            nrows m = feature_count h).
  { rewrite Hload.
    destruct (existsb np_isnan (first_point h ts data)); eexists;
      split; reflexivity. }
  destruct Hrows as (m & Hok & Hr).
  rewrite (from_file_pcd _ _ _ Hbin Hpcd Hok), Hr.
  destruct (Nat.eqb_spec (feature_count h) 4) as [E | E].
  - split; [|contradiction]. split; [now intros _ | intros _; now eexists].
  - split; [|reflexivity]. split; [intros [pc Hpc]; discriminate Hpc | contradiction].
Qed.

End FromFile.

(** ** More on remove_close *)

Section RemoveCloseMore.

Local Open Scope nat_scope.

Lemma select_all {A : Type} (r : list A) :
  select (repeat true (List.length r)) r = r.
Proof. induction r as [|x r IH]; [reflexivity|]. cbn. now rewrite IH. Qed.

Lemma count_occ_all (n : nat) : count_occ bool_dec (repeat true n) true = n.
Proof.
  induction n as [|n IH]; [reflexivity|]. cbn [repeat count_occ].
  destruct (bool_dec true true) as [_|E]; [now rewrite IH | now destruct E].
Qed.

(** Masking with an all-true mask changes nothing. *)
Lemma mask_columns_all {A : Type} (m : matrix A) :
  rectangular m -> mask_columns m (repeat true (ncols m)) = m.
Proof.
  destruct m as [nr nc rs]. intros [_ Hc]. cbn [rows ncols] in Hc.
  unfold mask_columns. cbn [nrows ncols rows]. rewrite count_occ_all.
  f_equal. rewrite <- (map_id rs) at 2. apply map_ext_in.
  intros r Hr. rewrite Forall_forall in Hc. rewrite <- (Hc r Hr).
  apply select_all.
Qed.

Lemma map_filter_all {A : Type} (f : A -> bool) (l : list A) :
  map f (filter f l) = repeat true (List.length (filter f l)).
Proof.
  induction l as [|a l IH]; [reflexivity|].
  cbn [filter]. destruct (f a) eqn:E; [|exact IH].
  cbn. now rewrite E, IH.
Qed.

Lemma length_columns_of {A : Type} (n : nat) :
  forall rs : list (list A), List.length (columns_of n rs) = n.
Proof.
  induction n as [|n IH]; intros rs; [reflexivity|].
  cbn [columns_of List.length]. now rewrite IH.
Qed.

(** [remove_close] on a cloud, in one step: the columns are masked by
    the gate. *)
Lemma remove_close_mask (pc : PointCloud spec_float) (radius : spec_float) :
  rectangular (points pc) -> nrows (points pc) = 4 ->
  remove_close pc radius =
  Ok (MkPointCloud
        (mask_columns (points pc)
           (map (fun c => negb (in_gate radius c)) (columns (points pc))))).
Proof.
  destruct pc as [[nr nc rs]]. cbn [points nrows ncols rows].
  intros [Hlen Hrows] Hnr. cbn [rows nrows ncols] in Hlen, Hrows.
  rewrite Hnr in Hlen |- *. clear Hnr nr.
  destruct rs as [|r0 [|r1 rest]]; try discriminate.
  apply Forall_cons_iff in Hrows as [H0 Hrows].
  apply Forall_cons_iff in Hrows as [H1 Hrest].
  unfold remove_close, columns. cbn [points rows ncols index nth_error bind].
  now rewrite (not_close_mask radius nc r0 r1 rest H0 H1 Hrest).
Qed.

(** X9.  [remove_close] is idempotent: removing the close points of a
    cloud a second time, with the same radius, changes nothing. *)
Theorem remove_close_idempotent (pc pc' : PointCloud spec_float)
  (radius : spec_float) :
  rectangular (points pc) -> nrows (points pc) = 4 ->
  remove_close pc radius = Ok pc' ->
  remove_close pc' radius = Ok pc'.
Proof.
  intros Hrect Hnr Hpc.
  rewrite (remove_close_mask pc radius Hrect Hnr) in Hpc.
  injection Hpc as <-.
  set (keep := fun c => negb (in_gate radius c)).
  set (m' := mask_columns (points pc) (map keep (columns (points pc)))).
  assert (Hml : List.length (map keep (columns (points pc))) = ncols (points pc))
    by (rewrite length_map; apply length_columns_of).
  assert (Hrect' : rectangular m')
    by (now apply mask_columns_rectangular).
  assert (Hcols : columns m' = filter keep (columns (points pc))).
  { unfold columns, m', mask_columns. cbn [ncols rows].
    destruct Hrect as [_ Hc].
    rewrite columns_of_select
      by (eapply Forall_impl; [|exact Hc]; cbn; intros; congruence).
    rewrite Hml. apply select_map_filter. }
  rewrite (remove_close_mask (MkPointCloud m') radius Hrect' Hnr).
  cbn [points]. fold keep. rewrite Hcols, map_filter_all, <- Hcols.
  unfold columns at 1. rewrite length_columns_of.
  now rewrite mask_columns_all.
Qed.

Lemma abs_never_below (radius x : spec_float) :
  gates_nothing radius = true -> SFltb (SFabs x) radius = false.
Proof.
  destruct radius as [s | s | | s m e]; cbn [gates_nothing];
    intros H; try subst s; try discriminate;
    destruct x as [sx | sx | | sx mx ex]; reflexivity.
Qed.

Lemma in_gate_nothing (radius : spec_float) (point : list spec_float) :
  gates_nothing radius = true -> in_gate radius point = false.
Proof.
  intros H. destruct point as [|x [|y t]]; try reflexivity.
  cbn [in_gate]. now rewrite abs_never_below.
Qed.

(** X10.  A radius that is NaN, zero or negative removes nothing:
    [remove_close] returns the cloud as it is. *)
Theorem remove_close_nothing (pc : PointCloud spec_float) (radius : spec_float) :
  rectangular (points pc) -> nrows (points pc) = 4 ->
  gates_nothing radius = true ->
  remove_close pc radius = Ok pc.
Proof.
  intros Hrect Hnr Hrad.
  rewrite (remove_close_mask pc radius Hrect Hnr).
  replace (map (fun c => negb (in_gate radius c)) (columns (points pc)))
    with (repeat true (ncols (points pc))).
  - rewrite mask_columns_all by assumption. now destruct pc.
  - unfold columns.
    rewrite <- (length_columns_of (ncols (points pc)) (rows (points pc))) at 1.
    induction (columns_of (ncols (points pc)) (rows (points pc))) as [|c cs IH];
      [reflexivity|].
    cbn [List.length repeat map]. now rewrite in_gate_nothing, IH.
Qed.

End RemoveCloseMore.

(** ** PointCloud.translate, rotate and transform *)

Section CloudGeometry.

Local Open Scope nat_scope.

(** The columns of an array of four rows. *)
Lemma columns_of_4 {A : Type} (n : nat) :
  forall r0 r1 r2 r3 : list A,
    List.length r0 = n -> List.length r1 = n ->
    List.length r2 = n -> List.length r3 = n ->
    columns_of n [r0; r1; r2; r3] =
    map (fun q => [fst (fst (fst q)); snd (fst (fst q)); snd (fst q); snd q])
        (combine (combine (combine r0 r1) r2) r3).
Proof.
  induction n as [|n IH]; intros r0 r1 r2 r3 H0 H1 H2 H3.
  - destruct r0; [|discriminate]. reflexivity.
  - destruct r0 as [|a r0]; [discriminate|].
    destruct r1 as [|b r1]; [discriminate|].
    destruct r2 as [|c r2]; [discriminate|].
    destruct r3 as [|d r3]; [discriminate|].
    injection H0 as H0. injection H1 as H1. injection H2 as H2.
    injection H3 as H3.
    cbn [columns_of map tl combine fst snd]. rewrite IH by assumption.
    reflexivity.
Qed.

Lemma length_dot_row (r : vec3) (n : nat) :
  forall xs ys zs,
    List.length xs = n -> List.length ys = n -> List.length zs = n ->
    List.length (dot_row r xs ys zs) = n.
Proof.
  induction n as [|n IH]; intros xs ys zs Hx Hy Hz;
    destruct xs as [|x xs]; try discriminate; [reflexivity|].
  destruct ys as [|y ys]; [discriminate|].
  destruct zs as [|z zs]; [discriminate|].
  cbn [List.length] in *. cbn [dot_row List.length]. rewrite IH by lia. reflexivity.
Qed.

Lemma dot_row_combine (r : vec3) (n : nat) :
  forall xs ys zs,
    List.length xs = n -> List.length ys = n -> List.length zs = n ->
    dot_row r xs ys zs =
    map (fun q => dot3 r (fst (fst q)) (snd (fst q)) (snd q))
        (combine (combine xs ys) zs).
Proof.
  induction n as [|n IH]; intros xs ys zs Hx Hy Hz;
    destruct xs as [|x xs]; try discriminate; [reflexivity|].
  destruct ys as [|y ys]; [discriminate|].
  destruct zs as [|z zs]; [discriminate|].
  cbn [List.length] in *. cbn [dot_row combine map fst snd].
  rewrite IH by lia. reflexivity.
Qed.

Lemma length_dot4_row (t : vec4) (n : nat) :
  forall xs ys zs,
    List.length xs = n -> List.length ys = n -> List.length zs = n ->
    List.length (dot4_row t xs ys zs (repeat (float_of_Z 1) n)) = n.
Proof.
  induction n as [|n IH]; intros xs ys zs Hx Hy Hz;
    destruct xs as [|x xs]; try discriminate; [reflexivity|].
  destruct ys as [|y ys]; [discriminate|].
  destruct zs as [|z zs]; [discriminate|].
  cbn [List.length] in *. cbn [repeat dot4_row List.length].
  rewrite IH by lia. reflexivity.
Qed.

(** A row of the product with a row of ones below the coordinates. *)
Lemma dot4_row_combine (t : vec4) (n : nat) :
  forall xs ys zs,
    List.length xs = n -> List.length ys = n -> List.length zs = n ->
    dot4_row t xs ys zs (repeat (float_of_Z 1) n) =
    map (fun q => dot4 t (fst (fst q)) (snd (fst q)) (snd q) (float_of_Z 1))
        (combine (combine xs ys) zs).
Proof.
  induction n as [|n IH]; intros xs ys zs Hx Hy Hz;
    destruct xs as [|x xs]; try discriminate; [reflexivity|].
  destruct ys as [|y ys]; [discriminate|].
  destruct zs as [|z zs]; [discriminate|].
  cbn [List.length] in *. cbn [repeat dot4_row combine map fst snd].
  rewrite IH by lia. reflexivity.
Qed.

(** The four rows of a cloud. *)
Lemma cloud_rows (pc : PointCloud spec_float) :
  rectangular (points pc) -> nrows (points pc) = 4 ->
  exists r0 r1 r2 r3,
    rows (points pc) = [r0; r1; r2; r3] /\
    List.length r0 = ncols (points pc) /\ List.length r1 = ncols (points pc) /\
    List.length r2 = ncols (points pc) /\ List.length r3 = ncols (points pc).
Proof.
  destruct pc as [[nr nc rs]]. cbn [points nrows ncols rows].
  intros [Hlen Hrows] Hnr. cbn [rows nrows ncols] in Hlen, Hrows. subst nr.
  destruct rs as [|r0 [|r1 [|r2 [|r3 [|? ?]]]]]; try discriminate.
  repeat (apply Forall_cons_iff in Hrows as [? Hrows]).
  exists r0, r1, r2, r3. repeat split; assumption.
Qed.

(** [translate] on a cloud, in one step. *)
Lemma translate_rows (pc : PointCloud spec_float) (x0 x1 x2 : spec_float)
  (r0 r1 r2 r3 : list spec_float) :
  rows (points pc) = [r0; r1; r2; r3] ->
  translate pc (x0, x1, x2) =
  Ok (MkPointCloud
        (Matrix (nrows (points pc)) (ncols (points pc))
                [map (fun v => fadd v x0) r0; map (fun v => fadd v x1) r1;
                 map (fun v => fadd v x2) r2; r3])).
Proof.
  intros Hr. unfold translate.
  change (py_range 3) with [0; 1; 2]. cbn [for_each].
  unfold translate_row at 1. rewrite Hr.
  cbn [index nth_error vec3_list bind set_row points rows nrows ncols].
  unfold translate_row at 1.
  cbn [index nth_error vec3_list bind set_row points rows nrows ncols].
  unfold translate_row at 1.
  cbn [index nth_error vec3_list bind set_row points rows nrows ncols].
  reflexivity.
Qed.

(** X11.  [translate] moves every point of a cloud by the same vector
    and touches nothing else: the cloud keeps its shape and the order of
    its points, each point (x, y, z, i) becomes
    (x + t0, y + t1, z + t2, i), and the intensity row is the one it
    was. *)
Theorem translate_points (pc : PointCloud spec_float) (x : vec3) :
  rectangular (points pc) -> nrows (points pc) = 4 ->
  exists pc',
    translate pc x = Ok pc' /\
    nrows (points pc') = 4 /\ ncols (points pc') = ncols (points pc) /\
    rectangular (points pc') /\
    columns (points pc') = map (translate_point x) (columns (points pc)) /\
    nth_error (rows (points pc')) 3 = nth_error (rows (points pc)) 3.
Proof.
  intros Hrect Hnr.
  destruct (cloud_rows pc Hrect Hnr) as (r0 & r1 & r2 & r3 & Hr & H0 & H1 & H2 & H3).
  destruct x as [[x0 x1] x2].
  rewrite (translate_rows pc x0 x1 x2 r0 r1 r2 r3 Hr).
  eexists. split; [reflexivity|]. cbn [points nrows ncols rows].
  split; [exact Hnr|]. split; [reflexivity|].
  split; [split; cbn [rows nrows ncols];
          [now rewrite Hnr | repeat constructor; now rewrite ?length_map]|].
  split; [|now rewrite Hr].
  unfold columns. cbn [ncols rows]. rewrite Hr.
  rewrite !columns_of_4 by (rewrite ?length_map; assumption).
  rewrite map_map.
  clear Hr. revert r0 r1 r2 r3 H0 H1 H2 H3.
  induction (ncols (points pc)) as [|n IH]; intros r0 r1 r2 r3 H0 H1 H2 H3.
  - destruct r0; [|discriminate]. reflexivity.
  - destruct r0 as [|a r0]; [discriminate|].
    destruct r1 as [|b r1]; [discriminate|].
    destruct r2 as [|c r2]; [discriminate|].
    destruct r3 as [|d r3]; [discriminate|].
    cbn [List.length] in *. cbn [map combine fst snd translate_point]. f_equal.
    apply IH; lia.
Qed.

(** X12.  [rotate] multiplies every point of a cloud by the rotation
    matrix and touches nothing else: the cloud keeps its shape and the
    order of its points, the coordinates of each point become the
    products of the rows of the matrix with them, and the intensity row
    is the one it was. *)
Theorem rotate_points (pc : PointCloud spec_float) (R : vec3 * vec3 * vec3) :
  rectangular (points pc) -> nrows (points pc) = 4 ->
  exists pc',
    rotate pc R = Ok pc' /\
    nrows (points pc') = 4 /\ ncols (points pc') = ncols (points pc) /\
    rectangular (points pc') /\
    columns (points pc') = map (rotate_point R) (columns (points pc)) /\
    nth_error (rows (points pc')) 3 = nth_error (rows (points pc)) 3.
Proof.
  intros Hrect Hnr.
  destruct (cloud_rows pc Hrect Hnr) as (r0 & r1 & r2 & r3 & Hr & H0 & H1 & H2 & H3).
  destruct R as [[R0 R1] R2].
  unfold rotate. rewrite Hr.
  eexists. split; [reflexivity|]. cbn [points nrows ncols rows].
  split; [exact Hnr|]. split; [reflexivity|].
  split; [split; cbn [rows nrows ncols];
          [now rewrite Hnr
          | repeat constructor; try assumption; now apply length_dot_row]|].
  split; [|reflexivity].
  unfold columns. cbn [ncols rows]. rewrite Hr.
  rewrite !columns_of_4 by (try apply length_dot_row; assumption).
  rewrite map_map.
  rewrite !(dot_row_combine _ (ncols (points pc))) by assumption.
  clear Hr. revert r0 r1 r2 r3 H0 H1 H2 H3.
  induction (ncols (points pc)) as [|n IH]; intros r0 r1 r2 r3 H0 H1 H2 H3.
  - destruct r0; [|discriminate]. reflexivity.
  - destruct r0 as [|a r0]; [discriminate|].
    destruct r1 as [|b r1]; [discriminate|].
    destruct r2 as [|c r2]; [discriminate|].
    destruct r3 as [|d r3]; [discriminate|].
    cbn [List.length] in *. cbn [map combine fst snd rotate_point]. f_equal.
    apply IH; lia.
Qed.

(** X13.  [transform] multiplies every point of a cloud, a one put in the
    place of its intensity, by the first three rows of the matrix, and
    touches nothing else: the cloud keeps its shape and the order of
    its points, and the intensity row is the one it was.  The last row
    of the matrix is not used. *)
Theorem transform_points (pc : PointCloud spec_float)
  (T : vec4 * vec4 * vec4 * vec4) :
  rectangular (points pc) -> nrows (points pc) = 4 ->
  exists pc',
    transform pc T = Ok pc' /\
    nrows (points pc') = 4 /\ ncols (points pc') = ncols (points pc) /\
    rectangular (points pc') /\
    columns (points pc') = map (transform_point T) (columns (points pc)) /\
    nth_error (rows (points pc')) 3 = nth_error (rows (points pc)) 3 /\
    forall T3 : vec4, transform pc (fst T, T3) = Ok pc'.
Proof.
  intros Hrect Hnr.
  destruct (cloud_rows pc Hrect Hnr) as (r0 & r1 & r2 & r3 & Hr & H0 & H1 & H2 & H3).
  destruct T as [[[T0 T1] T2] T3].
  unfold transform, nbr_points. rewrite Hr. cbn [fst].
  eexists. split; [reflexivity|]. cbn [points nrows ncols rows].
  split; [exact Hnr|]. split; [reflexivity|].
  split; [split; cbn [rows nrows ncols];
          [now rewrite Hnr
          | repeat constructor; try assumption; now apply length_dot4_row]|].
  split; [|split; reflexivity].
  unfold columns. cbn [ncols rows]. rewrite Hr.
  rewrite !columns_of_4 by (try apply length_dot4_row; assumption).
  rewrite map_map.
  rewrite !(dot4_row_combine _ (ncols (points pc))) by assumption.
  clear Hr. revert r0 r1 r2 r3 H0 H1 H2 H3.
  induction (ncols (points pc)) as [|n IH]; intros r0 r1 r2 r3 H0 H1 H2 H3.
  - destruct r0; [|discriminate]. reflexivity.
  - destruct r0 as [|a r0]; [discriminate|].
    destruct r1 as [|b r1]; [discriminate|].
    destruct r2 as [|c r2]; [discriminate|].
    destruct r3 as [|d r3]; [discriminate|].
    cbn [List.length] in *. cbn [map combine fst snd transform_point]. f_equal.
    apply IH; lia.
Qed.

End CloudGeometry.

(** ** A number is close to itself *)

Section CloseRefl.

Lemma shr_1_nonneg (mrs : shr_record) :
  (0 <= shr_m mrs)%Z -> (0 <= shr_m (shr_1 mrs))%Z.
Proof.
  destruct mrs as [m r s]. cbn [shr_m].
  destruct m as [|p|p]; intros H; [cbn; lia | | lia].
  destruct p; cbn; lia.
Qed.

Lemma iter_pos_nonneg (p : positive) :
  forall mrs, (0 <= shr_m mrs)%Z -> (0 <= shr_m (iter_pos shr_1 p mrs))%Z.
Proof.
  induction p as [p IH | p IH |]; intros mrs H; cbn [iter_pos].
  - apply IH, IH, shr_1_nonneg, H.
  - apply IH, IH, H.
  - apply shr_1_nonneg, H.
Qed.

Lemma shr_fexp_nonneg (m e : Z) (l : location) :
  (0 <= m)%Z -> (0 <= shr_m (fst (shr_fexp prec64 emax64 m e l)))%Z.
Proof.
  intros H. unfold shr_fexp, shr.
  assert (H0 : (0 <= shr_m (shr_record_of_loc m l))%Z)
    by (destruct l as [|[]]; exact H).
  destruct (fexp prec64 emax64 (Zdigits2 m + e) - e)%Z; cbn [fst];
    try exact H0.
  now apply iter_pos_nonneg.
Qed.

Lemma round_nearest_even_nonneg (m : Z) (l : location) :
  (0 <= m)%Z -> (0 <= round_nearest_even m l)%Z.
Proof.
  intros H. destruct l as [|[]]; cbn; try exact H; [|lia].
  destruct (Z.even m); lia.
Qed.

(** Rounding a number that is zero or above gives one. *)
Lemma binary_round_aux_nonneg (m e : Z) (l : location) :
  (0 <= m)%Z ->
  nonneg_result (binary_round_aux prec64 emax64 false m e l) = true.
Proof.
  intros H. unfold binary_round_aux.
  pose proof (shr_fexp_nonneg m e l H) as H1.
  destruct (shr_fexp prec64 emax64 m e l) as [mrs' e']. cbn [fst] in H1.
  pose proof (shr_fexp_nonneg _ e' loc_Exact
                (round_nearest_even_nonneg _ (loc_of_shr_record mrs') H1)) as H2.
  destruct (shr_fexp prec64 emax64 _ e' loc_Exact) as [mrs'' e''].
  cbn [fst] in H2.
  destruct (shr_m mrs'') as [|p|p]; [reflexivity | | lia].
  now destruct (Z.leb e'' (emax64 - prec64)).
Qed.

Lemma fmul_nonneg (m : positive) (e : Z) (x : spec_float) :
  nonneg_result x = true -> is_nan x = false ->
  nonneg_result (fmul (S754_finite false m e) x) = true.
Proof.
  destruct x as [[] | [] | | [] mx ex]; try discriminate; intros _ _;
    try reflexivity.
  unfold fmul, SFmul. cbn [xorb]. now apply binary_round_aux_nonneg.
Qed.

Lemma fadd_nonneg (m : positive) (e : Z) (x : spec_float) :
  nonneg_result x = true ->
  nonneg_result (fadd (S754_finite false m e) x) = true.
Proof.
  destruct x as [[] | [] | | [] mx ex]; try discriminate; intros _;
    try reflexivity.
  unfold fadd, SFadd. cbn [cond_Zopp].
  unfold binary_normalize.
  destruct (Z.pos (fst (shl_align m e (Z.min e ex))) +
            Z.pos (fst (shl_align mx ex (Z.min e ex))))%Z as [|p|p] eqn:E;
    [reflexivity | | lia].
  unfold binary_round.
  destruct (shl_align p (Z.min e ex)
              (fexp prec64 emax64 (Z.pos (digits2_pos p) + Z.min e ex)))
    as [mz ez].
  now apply binary_round_aux_nonneg.
Qed.

Lemma SFleb_zero_nonneg (x : spec_float) :
  nonneg_result x = true -> SFleb (S754_zero false) x = true.
Proof. destruct x as [[] | [] | | [] m e]; try discriminate; reflexivity. Qed.

Lemma fsub_diag (s : bool) (m : positive) (e : Z) :
  fsub (S754_finite s m e) (S754_finite s m e) = S754_zero false.
Proof.
  unfold fsub, SFsub. now rewrite Z.sub_diag.
Qed.

(** Every number but NaN is close to itself. *)
Lemma isclose_refl (x : spec_float) : is_nan x = false -> isclose x x = true.
Proof.
  destruct x as [s | s | | s m e]; try discriminate; intros _.
  - destruct s; reflexivity.
  - destruct s; reflexivity.
  - unfold isclose. cbn [is_finite andb]. rewrite fsub_diag.
    cbn [SFabs]. apply SFleb_zero_nonneg.
    change atol with (S754_finite false 6044629098073146 (-79)).
    apply fadd_nonneg.
    change rtol with (S754_finite false 5902958103587057 (-69)).
    now apply fmul_nonneg.
Qed.

Lemma allclose_refl (a : list spec_float) :
  any_isnan a = false -> allclose a a = true.
Proof.
  unfold allclose, any_isnan. induction a as [|x a IH]; [reflexivity|].
  cbn [existsb combine forallb fst snd]. intros H.
  apply orb_false_iff in H as [Hx Ha].
  now rewrite isclose_refl, IH.
Qed.

End CloseRefl.

(** ** More on Box *)

Section BoxMore.

Variable rotation_matrix : Quaternion -> vec3 * vec3 * vec3.
Variable quaternion_mul : Quaternion -> Quaternion -> Quaternion.

Lemma assert_len3_list (l : list spec_float) (msg : string) (v : vec3) :
  assert_len3 l msg = Ok v -> vec3_list v = l.
Proof.
  destruct l as [|a [|b [|c [|? ?]]]]; try discriminate.
  now intros [= <-].
Qed.

(** X14.  What the constructor guarantees.  A constructed box has the
    center and the size it was given, three numbers each and none of
    them NaN; it has the orientation, the velocity and the name it was
    given; its label is an integer or NaN, and its score a float. *)
Theorem Box_init_invariant c size q lbl scr vel nm b :
  Box_init c size q lbl scr vel nm = Ok b ->
  vec3_list (center b) = c /\ vec3_list (wlh b) = size /\
  any_isnan (vec3_list (center b)) = false /\
  any_isnan (vec3_list (wlh b)) = false /\
  orientation b = q /\ velocity b = vel /\ name b = nm /\
  ((exists z, label b = PyInt z) \/ label b = PyFloat nan) /\
  (exists f, score b = PyFloat f).
Proof.
  unfold Box_init. intros H. repeat case_ok H. injection H as <-.
  cbn [center wlh orientation velocity name label score].
  apply assert_len3_list in E1, E2. subst c size.
  unfold py_assert in E, E0.
  destruct (any_isnan (vec3_list a1)); [discriminate|].
  destruct (any_isnan (vec3_list a2)); [discriminate|].
  repeat (split; [reflexivity|]).
  split.
  - destruct a3; cbn [negb] in E4.
    + injection E4 as <-. right.
      destruct lbl as [f | z]; unfold np_isnan_scalar in E3.
      * injection E3 as E3. destruct f; try discriminate. reflexivity.
      * destruct (_ && _) in E3; discriminate.
    + left. destruct lbl as [f | z]; cbn [py_int_of] in E4.
      * case_ok E4. injection E4 as <-. eauto.
      * injection E4 as <-. eauto.
  - destruct a5; cbn [negb] in E6.
    + injection E6 as <-.
      destruct scr as [f | z]; unfold np_isnan_scalar in E5; [eauto|].
      destruct (_ && _) in E5; discriminate.
    + destruct scr as [f | z]; cbn [py_float_of] in E6.
      * injection E6 as <-. eauto.
      * destruct (float_of_Z z); try discriminate; injection E6 as <-; eauto.
Qed.

(** X15.  With an orientation free of NaN, a constructed box equals
    itself exactly when its velocity is not absent in some but not all
    components: wholly present and wholly absent velocities compare
    equal to themselves. *)
Theorem Box_eq_self c size q lbl scr vel nm b :
  Box_init c size q lbl scr vel nm = Ok b ->
  any_isnan (elements q) = false ->
  Box_eq b b = Ok (negb (partly_absent vel)).
Proof.
  intros Hb Hq.
  destruct (Box_init_velocity _ _ _ _ _ _ _ _ Hb).
  assert (Hc : any_isnan (vec3_list (center b)) = false /\
               any_isnan (vec3_list (wlh b)) = false /\ orientation b = q).
  { revert Hb. unfold Box_init. intros H. repeat case_ok H. injection H as <-.
    cbn [center wlh orientation].
    apply assert_len3_list in E1, E2. subst c size.
    unfold py_assert in E, E0.
    destruct (any_isnan (vec3_list a1)); [discriminate|].
    destruct (any_isnan (vec3_list a2)); [discriminate|].
    repeat split. }
  destruct Hc as (Hc & Hs & Ho).
  unfold Box_eq. rewrite !eq_or_both_nan_refl. cbn [bind].
  rewrite !allclose_refl by (rewrite ?Ho; assumption).
  cbn [andb]. f_equal.
  destruct (partly_absent (velocity b)) eqn:Hp.
  - now rewrite vel_eq_partly_absent_l.
  - cbn [negb]. apply vel_eq_iff.
    unfold partly_absent in Hp. unfold present3, absent3.
    destruct (any_isnan (vec3_list (velocity b))) eqn:Ha.
    + right. cbn [andb] in Hp. apply negb_false_iff in Hp. now split.
    + left. repeat split. now apply allclose_refl.
Qed.

(** X16.  Box equality is not symmetric: two boxes that differ only in
    the first component of their velocities, 1 in one and 1.000010010005
    in the other, compare equal in one order and unequal in the other,
    because the tolerance of [np.allclose] is relative to its second
    argument. *)
Theorem Box_eq_not_symmetric :
  exists b1 b2,
    unit_box (fone, fzero, fzero) = Ok b1 /\
    unit_box (near_one, fzero, fzero) = Ok b2 /\
    Box_eq b1 b2 = Ok true /\ Box_eq b2 b1 = Ok false.
Proof.
  exists (unit_box_of (fone, fzero, fzero)),
         (unit_box_of (near_one, fzero, fzero)).
  repeat split; vm_compute; reflexivity.
Qed.

Lemma fadd_nan_l (x : spec_float) : fadd S754_nan x = S754_nan.
Proof. reflexivity. Qed.

Lemma fadd_nan_r (x : spec_float) : fadd x S754_nan = S754_nan.
Proof. destruct x; reflexivity. Qed.

Lemma fmul_nan_r (x : spec_float) : fmul x S754_nan = S754_nan.
Proof. destruct x; reflexivity. Qed.

(** A NaN among the coordinates makes every product with a matrix row
    a NaN. *)
Lemma dot3_nan (r : vec3) (x y z : spec_float) :
  is_nan x || is_nan y || is_nan z = true -> dot3 r x y z = S754_nan.
Proof.
  destruct r as [[r0 r1] r2]. unfold dot3. intros H.
  apply orb_true_iff in H as [H | H]; [apply orb_true_iff in H as [H | H]|].
  - destruct x; try discriminate. now rewrite fmul_nan_r.
  - destruct y; try discriminate. now rewrite fmul_nan_r, fadd_nan_r.
  - destruct z; try discriminate. now rewrite fmul_nan_r, fadd_nan_r.
Qed.

(** X17.  [rotate] leaves size, label, score and name as they are, and
    spreads absence over the velocity: when any component of the
    velocity is absent before the rotation, all three are absent after
    it, whatever the rotation. *)
Theorem Box_rotate_absent_velocity (b : Box) (q : Quaternion) :
  any_isnan (vec3_list (velocity b)) = true ->
  let b' := Box_rotate rotation_matrix quaternion_mul b q in
  absent3 (velocity b') = true /\
  wlh b' = wlh b /\ label b' = label b /\ score b' = score b /\
  name b' = name b.
Proof.
  intros H. cbn zeta. unfold Box_rotate. cbn [velocity wlh label score name].
  repeat split.
  destruct (velocity b) as [[x y] z]. unfold any_isnan in H.
  cbn [vec3_list existsb] in H. rewrite orb_false_r, orb_assoc in H.
  unfold mat_vec. destruct (rotation_matrix q) as [[R0 R1] R2].
  now rewrite !dot3_nan.
Qed.

Lemma pick_bottom {A : Type} (a0 a1 a2 a3 a4 a5 a6 a7 : A) :
  pick [2; 3; 7; 6]%nat [a0; a1; a2; a3; a4; a5; a6; a7] = Ok [a2; a3; a7; a6].
Proof. reflexivity. Qed.

(** X18.  [bottom_corners] returns a 3 x 4 array: corners 2, 3, 7 and 6
    of the box at scale 1, in that order.  They are the four corners of
    the bottom face: before rotation each has the local height minus
    half the height of the box. *)
Theorem bottom_corners_spec (b : Box) :
  exists m,
    bottom_corners rotation_matrix b = Ok m /\
    nrows m = 3%nat /\ ncols m = 4%nat /\ rectangular m /\
    columns m =
      map (fun i => rotate_then_translate (rotation_matrix (orientation b))
                                          (center b) (pre_corner b fone i))
          [2; 3; 7; 6]%nat /\
    Forall (fun i => snd (pre_corner b fone i) =
                     SFopp (snd (pre_corner b fone 0)))
           [2; 3; 7; 6]%nat.
Proof.
  destruct b as [[[cx cy] cz] [[w l] h] q lbl scr vel nm].
  unfold bottom_corners, corners, corner_rows, pre_corner, half_extents, two.
  cbn [wlh center orientation].
  destruct (rotation_matrix q) as [[R0 R1] R2].
  cbn [scale_signs map dot_row rows nrows List.length pick_rows bind].
  rewrite !pick_bottom. cbn [bind].
  eexists. split; [reflexivity|].
  split; [reflexivity|]. split; [reflexivity|].
  split; [split; [reflexivity | repeat constructor]|].
  split; [reflexivity|].
  cbn [nth signs_z snd]. rewrite <- fmul_minus_one.
  repeat constructor.
Qed.

End BoxMore.

(** ** The properties on the sample inputs *)

Section Samples.

Local Open Scope nat_scope.

Lemma rectangular_gate_cloud : rectangular (points gate_cloud).
Proof. split; [reflexivity | repeat constructor]. Defined.

Lemma read_meta_pcd_lidar : read_meta pcd_lidar = Ok (lidar_meta, lidar_data).
Proof. vm_compute. reflexivity. Defined.

Lemma parse_header_lidar : parse_header lidar_meta = Ok lidar_header.
Proof. vm_compute. reflexivity. Defined.

Lemma lidar_payload_long :
  (h_width lidar_header * point_bytes lidar_header <
   Z.of_nat (String.length lidar_data))%Z.
Proof. vm_compute. reflexivity. Defined.

(** The payload of [pcd_first_nan] is one byte longer than its two
    points, and the file decodes. *)
Lemma load_pcd_bin_succeeds_iff_witness :
  read_meta pcd_first_nan = Ok (first_nan_meta, first_nan_data) /\
  parse_header first_nan_meta = Ok first_nan_header /\
  (h_width first_nan_header * point_bytes first_nan_header <
   Z.of_nat (String.length first_nan_data))%Z /\
  exists m, load_pcd_bin pcd_first_nan = Ok m.
Proof.
  assert (Hm : read_meta pcd_first_nan = Ok (first_nan_meta, first_nan_data))
    by (vm_compute; reflexivity).
  assert (Hh : parse_header first_nan_meta = Ok first_nan_header)
    by (vm_compute; reflexivity).
  assert (Hl : (h_width first_nan_header * point_bytes first_nan_header <
                Z.of_nat (String.length first_nan_data))%Z)
    by (vm_compute; reflexivity).
  split; [exact Hm|]. split; [exact Hh|]. split; [exact Hl|].
  exact (proj2 (proj1 (load_pcd_bin_succeeds_iff
                         pcd_first_nan first_nan_meta first_nan_data
                         first_nan_header "f" Hm Hh eq_refl (le_n 1) (le_n 1)))
               Hl).
Defined.

(** COUNT 2 and COUNT 1 over the same two points. *)
Lemma load_pcd_bin_ignores_count_witness :
  load_pcd_bin pcd_count_2 = load_pcd_bin pcd_count_1.
Proof.
  apply (load_pcd_bin_ignores_count pcd_count_2 pcd_count_1 count_pre
           "COUNT 2" "COUNT 1" count_post (bytes (le_one ++ le_one ++ [0])));
    vm_compute; reflexivity.
Defined.


Lemma load_pcd_bin_outcomes_witness :
  (exists m, load_pcd_bin pcd_lidar = Ok m /\ nrows m = 4 /\
             rectangular m /\ (ncols m = 0 \/ ncols m = 1)) \/
  load_pcd_bin pcd_lidar = Raise (AssertionError bounds_msg) \/
  (load_pcd_bin pcd_lidar = Raise IndexError /\ 4 < 4).
Proof.
  exact (load_pcd_bin_outcomes pcd_lidar lidar_meta lidar_data lidar_header
           "ffff" read_meta_pcd_lidar parse_header_lidar eq_refl).
Defined.

(** The header of [pcd_lidar], line by line, and its payload. *)
Lemma read_meta_header_payload_witness :
  read_meta (unlines (lidar_lines ++ ["DATA binary"]) ++ lidar_data) =
  Ok ((map strip lidar_lines ++ [strip "DATA binary"])%list, lidar_data).
Proof.
  apply (read_meta_header_payload lidar_lines "DATA binary" lidar_data).
  - repeat constructor.
  - reflexivity.
  - reflexivity.
Defined.

(** One point followed by one more byte. *)
Lemma from_file_bin_witness :
  exists pc,
    from_file "cloud.bin" bin_21_bytes = Ok pc /\
    nrows (points pc) = 4 /\ nbr_points pc = 1 /\
    forall i j, i < 4 -> j < 1 ->
      entry (points pc) i j =
      Some (PyFloat (decode_f32 (substring (20 * j + 4 * i) 4 bin_21_bytes))).
Proof.
  exact (from_file_bin "cloud.bin" bin_21_bytes 1 eq_refl eq_refl).
Defined.

(** The LIDAR file has four fields and is accepted. *)
Lemma from_file_pcd_four_fields_witness :
  exists pc, from_file "cloud.pcd" pcd_lidar = Ok pc.
Proof.
  exact (proj2 (proj1 (from_file_pcd_four_fields
                         "cloud.pcd" pcd_lidar lidar_meta lidar_data
                         lidar_header "ffff" eq_refl eq_refl
                         read_meta_pcd_lidar parse_header_lidar eq_refl
                         (le_n 4) lidar_payload_long))
               eq_refl).
Defined.

Lemma remove_close_idempotent_witness :
  remove_close gate_cloud gate_radius = Ok gate_cloud_far /\
  remove_close gate_cloud_far gate_radius = Ok gate_cloud_far.
Proof.
  assert (H : remove_close gate_cloud gate_radius = Ok gate_cloud_far)
    by (vm_compute; reflexivity).
  split; [exact H|].
  exact (remove_close_idempotent gate_cloud gate_cloud_far gate_radius
           rectangular_gate_cloud eq_refl H).
Defined.

(** The radius NaN. *)
Lemma remove_close_nothing_witness :
  remove_close gate_cloud nan = Ok gate_cloud.
Proof.
  exact (remove_close_nothing gate_cloud nan rectangular_gate_cloud
           eq_refl eq_refl).
Defined.

Lemma translate_points_witness :
  exists pc',
    translate gate_cloud (fone, fone, fone) = Ok pc' /\
    nrows (points pc') = 4 /\ ncols (points pc') = ncols (points gate_cloud) /\
    rectangular (points pc') /\
    columns (points pc') =
      map (translate_point (fone, fone, fone)) (columns (points gate_cloud)) /\
    nth_error (rows (points pc')) 3 = nth_error (rows (points gate_cloud)) 3.
Proof.
  exact (translate_points gate_cloud (fone, fone, fone)
           rectangular_gate_cloud eq_refl).
Defined.

Lemma rotate_points_witness :
  exists pc',
    rotate gate_cloud (identity_rotation unit_quaternion) = Ok pc' /\
    nrows (points pc') = 4 /\ ncols (points pc') = ncols (points gate_cloud) /\
    rectangular (points pc') /\
    columns (points pc') =
      map (rotate_point (identity_rotation unit_quaternion))
          (columns (points gate_cloud)) /\
    nth_error (rows (points pc')) 3 = nth_error (rows (points gate_cloud)) 3.
Proof.
  exact (rotate_points gate_cloud (identity_rotation unit_quaternion)
           rectangular_gate_cloud eq_refl).
Defined.

Lemma transform_points_witness :
  exists pc',
    transform gate_cloud sample_transform = Ok pc' /\
    nrows (points pc') = 4 /\ ncols (points pc') = ncols (points gate_cloud) /\
    rectangular (points pc') /\
    columns (points pc') =
      map (transform_point sample_transform) (columns (points gate_cloud)) /\
    nth_error (rows (points pc')) 3 = nth_error (rows (points gate_cloud)) 3 /\
    forall T3 : vec4, transform gate_cloud (fst sample_transform, T3) = Ok pc'.
Proof.
  exact (transform_points gate_cloud sample_transform
           rectangular_gate_cloud eq_refl).
Defined.

(** The unit box with an absent velocity. *)
Lemma Box_init_invariant_witness :
  unit_box (nan, nan, nan) = Ok (unit_box_of (nan, nan, nan)) /\
  any_isnan (vec3_list (center (unit_box_of (nan, nan, nan)))) = false /\
  any_isnan (vec3_list (wlh (unit_box_of (nan, nan, nan)))) = false.
Proof.
  split; [reflexivity|].
  pose proof (Box_init_invariant
                [fzero; fzero; fzero] [fone; fone; fone] unit_quaternion
                (PyFloat nan) (PyFloat nan) (nan, nan, nan) None
                (unit_box_of (nan, nan, nan)) eq_refl) as H.
  split; [exact (proj1 (proj2 (proj2 H))) |
          exact (proj1 (proj2 (proj2 (proj2 H))))].
Defined.

Lemma Box_eq_self_witness :
  Box_eq (unit_box_of (fone, fzero, fzero)) (unit_box_of (fone, fzero, fzero)) =
  Ok (negb (partly_absent (fone, fzero, fzero))).
Proof.
  exact (Box_eq_self [fzero; fzero; fzero] [fone; fone; fone] unit_quaternion
           (PyFloat nan) (PyFloat nan) (fone, fzero, fzero) None
           (unit_box_of (fone, fzero, fzero)) eq_refl eq_refl).
Defined.

(** The velocity (1.0, NaN, NaN) under the identity rotation. *)
Lemma Box_rotate_absent_velocity_witness :
  absent3 (velocity (Box_rotate identity_rotation mul_by_unit
                                (unit_box_of partial_velocity)
                                unit_quaternion)) = true.
Proof.
  exact (proj1 (Box_rotate_absent_velocity identity_rotation mul_by_unit
                  (unit_box_of partial_velocity) unit_quaternion eq_refl)).
Defined.

End Samples.
